(** * The Logstash callback plugin (logstash.py), embedded and verified

    The plugin reacts to lifecycle callbacks of the Ansible runtime, extracts
    a few fields of each task result, merges them into a per-session record,
    and writes the record as one JSON line to a TCP socket.

    Python values are embedded as an inductive type, [str] as the list of its
    Unicode code points, [dict] with [str] keys as a finite map, and the
    instance attributes of [CallbackModule] as a record that every method
    threads through a state-and-exception monad. *)

From stdpp Require Import gmap strings list fin_maps pretty.
From Stdlib Require Import ZArith Ascii String Lia.

Set Warnings "-register-all".
Local Open Scope Z_scope.

(** ** Python values and built-ins *)

Module Py.

(** A Python [str]: the sequence of its code points. *)
Abbreviation str := (list Z).

(** An ASCII literal of the source, as a [str]. *)
Definition u (s : string) : str :=
  (λ a, Z.of_N (N_of_ascii a)) <$> list_ascii_of_string s.

Inductive PyVal : Type :=
| VNone
| VBool (b : bool)
| VInt (z : Z)
| VStr (s : str)
| VList (l : list PyVal)
| VDict (d : gmap str PyVal).

Abbreviation dict := (gmap str PyVal).

(** The exceptions that the plugin can meet. *)
Inductive Exc : Type :=
| KeyError (key : str)
| AttributeError (name : str)
| TypeError
| ValueError
| UnicodeEncodeError
| ConnectionRefusedError
| BrokenPipeError
| OSError.

(** A computation that returns or raises. *)
Definition Res (A : Type) : Type := Exc + A.

#[global] Instance Res_ret : MRet Res := λ A a, inr a.
#[global] Instance Res_bind : MBind Res := λ A B f m,
  match m with
  | inr a => f a
  | inl e => inl e
  end.

(** Truth value of an object, as tested by [if x:]. *)
Definition truthy (v : PyVal) : bool :=
  match v with
  | VNone => false
  | VBool b => b
  | VInt z => negb (z =? 0)
  | VStr s => match s with [] => false | _ => true end
  | VList l => match l with [] => false | _ => true end
  | VDict d => match map_to_list d with [] => false | _ => true end
  end.

(** [d.get(key, dflt)] on a dict. *)
Definition dict_get (d : dict) (key : str) (dflt : PyVal) : PyVal :=
  default dflt (d !! key).

(** [v.get(key, dflt)]: only a dict has the method. *)
Definition py_get (v : PyVal) (key : str) (dflt : PyVal) : Res PyVal :=
  match v with
  | VDict d => inr (dict_get d key dflt)
  | _ => inl (AttributeError (u "get"))
  end.

(** [v[key]] for a [str] key. *)
Definition py_getitem (v : PyVal) (key : str) : Res PyVal :=
  match v with
  | VDict d =>
      match d !! key with
      | Some x => inr x
      | None => inl (KeyError key)
      end
  | _ => inl TypeError
  end.

(** An item of the sequence given to [str.join] must be a [str]. *)
Definition as_str (v : PyVal) : Res str :=
  match v with
  | VStr s => inr s
  | _ => inl TypeError
  end.

(** [sep.join(items)]. *)
Fixpoint join (sep : str) (items : list str) : str :=
  match items with
  | [] => []
  | [s] => s
  | s :: rest => s ++ sep ++ join sep rest
  end.

(** [str.isspace] of one code point: the characters removed by [strip()]. *)
Definition is_space (c : Z) : bool :=
  ((0x09 <=? c) && (c <=? 0x0D)) || ((0x1C <=? c) && (c <=? 0x20))
  || (c =? 0x85) || (c =? 0xA0) || (c =? 0x1680)
  || ((0x2000 <=? c) && (c <=? 0x200A))
  || (c =? 0x2028) || (c =? 0x2029) || (c =? 0x202F)
  || (c =? 0x205F) || (c =? 0x3000).

Fixpoint lstrip (s : str) : str :=
  match s with
  | [] => []
  | c :: s' => if is_space c then lstrip s' else s
  end.

Definition rstrip (s : str) : str := reverse (lstrip (reverse s)).

(** [s.strip()]. *)
Definition strip (s : str) : str := rstrip (lstrip s).

(** [s.replace('\n', ' ')]. *)
Definition replace_newline (s : str) : str :=
  (λ c, if c =? 0x0A then 0x20 else c) <$> s.

(** UTF-8 encoding of one code point; a surrogate cannot be encoded. *)
Definition utf8_char (c : Z) : Res (list Z) :=
  if c <? 0x80 then inr [c]
  else if c <? 0x800 then
    inr [Z.lor 0xC0 (Z.shiftr c 6); Z.lor 0x80 (Z.land c 0x3F)]
  else if (0xD800 <=? c) && (c <=? 0xDFFF) then inl UnicodeEncodeError
  else if c <? 0x10000 then
    inr [Z.lor 0xE0 (Z.shiftr c 12);
         Z.lor 0x80 (Z.land (Z.shiftr c 6) 0x3F);
         Z.lor 0x80 (Z.land c 0x3F)]
  else
    inr [Z.lor 0xF0 (Z.shiftr c 18);
         Z.lor 0x80 (Z.land (Z.shiftr c 12) 0x3F);
         Z.lor 0x80 (Z.land (Z.shiftr c 6) 0x3F);
         Z.lor 0x80 (Z.land c 0x3F)].

(** [s.encode('utf-8')]. *)
Fixpoint encode_utf8 (s : str) : Res (list Z) :=
  match s with
  | [] => inr []
  | c :: s' =>
      b ← utf8_char c;
      bs ← encode_utf8 s';
      inr (b ++ bs)
  end.

(** [os.path.basename]: what follows the last slash. *)
Fixpoint basename_from (acc p : str) : str :=
  match p with
  | [] => acc
  | c :: p' =>
      if c =? 0x2F then basename_from [] p' else basename_from (acc ++ [c]) p'
  end.

Definition basename (p : str) : str := basename_from [] p.

(** Order of [str] values: lexicographic on code points. *)
Fixpoint str_le (a b : str) : bool :=
  match a, b with
  | [], _ => true
  | _ :: _, [] => false
  | x :: a', y :: b' => (x <? y) || ((x =? y) && str_le a' b')
  end.

Fixpoint insert_sorted (x : str) (l : list str) : list str :=
  match l with
  | [] => [x]
  | y :: l' => if str_le x y then x :: l else y :: insert_sorted x l'
  end.

(** [sorted(keys)]. *)
Definition sorted (l : list str) : list str := foldr insert_sorted [] l.

(** A string of printable ASCII with neither quote nor backslash: its
    [repr] is the string between single quotes. *)
Definition plain_ascii (s : str) : bool :=
  forallb (λ c, (0x20 <=? c) && (c <=? 0x7E)
                && negb (c =? 0x27) && negb (c =? 0x5C)) s.

End Py.

Import Py.

(** ** What the plugin calls but does not define

    [json_dumps] is [json.dumps(msg, cls=AnsibleJSONEncoder)];
    [_clean_results] and [_handle_warnings] are the methods of
    [CallbackBase], which rewrite the result payload in place;
    [repr_other] is [repr] outside the fragment modelled by [py_repr];
    [int_literal] is [int] of a string. *)

Class Host : Type := {
  json_dumps : dict → Res str;
  _clean_results : dict → PyVal → dict;
  _handle_warnings : dict → dict;
  repr_other : PyVal → str;
  int_literal : str → Res Z
}.

(** ** The objects of a run *)

(** The TCP socket: the bytes written so far, and whether the socket is
    in the state in which every write raises. *)
Record Socket : Type := mkSocket {
  sent : list Z;
  broken : bool
}.

(** What the module-level [display] has been asked to show. *)
Inductive Shown : Type :=
| Error_exc (e : Exc)
| Error_cannot_connect (server : PyVal) (port : Z)
| Banner_logging_to (server : PyVal) (port : Z)
| Display_session (session : PyVal).

(** The instance attributes of [CallbackModule]; [None] is an attribute
    that has not been assigned. [shown] is the output of [display]. *)
Record Self : Type := mkSelf {
  data : option dict;
  connected : option bool;
  sock : option Socket;
  shown : list Shown
}.

(** The instance after [__init__]: no attribute that the methods below
    read has been assigned (the pattern [self.field] is never read). *)
Definition init : Self :=
  {| data := None; connected := None; sock := None; shown := [] |}.

Definition set_data (d : dict) (self : Self) : Self :=
  {| data := Some d; connected := connected self;
     sock := sock self; shown := shown self |}.

Definition set_connected (b : bool) (self : Self) : Self :=
  {| data := data self; connected := Some b;
     sock := sock self; shown := shown self |}.

Definition set_sock (s : Socket) (self : Self) : Self :=
  {| data := data self; connected := connected self;
     sock := Some s; shown := shown self |}.

Definition display (x : Shown) (self : Self) : Self :=
  {| data := data self; connected := connected self;
     sock := sock self; shown := shown self ++ [x] |}.

(** A task result as the host hands it over: the payload [_result], the
    action of the task, and the names of the task and of the host. *)
Record TaskResult : Type := mkTaskResult {
  _result : dict;
  _task_action : PyVal;
  _task_name : str;
  _host_name : str
}.

(** The statistics object given to [v2_playbook_on_stats]. *)
Record Stats : Type := mkStats {
  processed : dict;
  summarize : str → PyVal
}.

(** How [sock.connect] ends. *)
Inductive Connect : Type :=
| Accepted
| Raises (e : Exc).

(** ** Methods run in a state-and-exception monad over [Self] *)

Definition M (A : Type) : Type := Self → Self * Res A.

#[global] Instance M_ret : MRet M := λ A a self, (self, inr a).
#[global] Instance M_bind : MBind M := λ A B f m self,
  match m self with
  | (self', inr a) => f a self'
  | (self', inl e) => (self', inl e)
  end.

Definition lift {A : Type} (r : Res A) : M A := λ self, (self, r).

Definition modify (f : Self → Self) : M unit := λ self, (f self, inr tt).

(** Reading an attribute that was never assigned raises. *)
Definition attr {A : Type} (name : string) (get : Self → option A) : M A :=
  λ self,
  match get self with
  | Some a => (self, inr a)
  | None => (self, inl (AttributeError (u name)))
  end.

(** ** The plugin *)

Section Callback.

Context `{Host}.

(** [repr(v)]: exact on [None], booleans and plain ASCII strings. *)
Definition py_repr (v : PyVal) : str :=
  match v with
  | VNone => u "None"
  | VBool true => u "True"
  | VBool false => u "False"
  | VStr s => if plain_ascii s then u "'" ++ s ++ u "'" else repr_other v
  | _ => repr_other v
  end.

(** [int(v)]. *)
Definition py_int (v : PyVal) : Res Z :=
  match v with
  | VInt z => inr z
  | VBool b => inr (if b then 1 else 0)
  | VStr s => int_literal s
  | _ => inl TypeError
  end.

(** [self.get_option(key)] on the options that [super().set_options]
    has loaded. *)
Definition get_option (options : dict) (key : str) : Res PyVal :=
  py_getitem (VDict options) key.

(** [set_options]: [uuid4] is [str(uuid.uuid4())], [login] is how
    [os.getlogin()] ends, and [net] how [self.sock.connect] ends. *)
Definition set_options (options : dict) (uuid4 : str) (login : Res str)
    (net : Connect) : M unit := λ self,
  match login with
  | inl e => (self, inl e)
  | inr user =>
      let self :=
        set_data (<[u "session" := VStr uuid4]>
                    (<[u "user" := VStr user]> ∅)) self in
      match (server ← get_option options (u "server");
             p ← get_option options (u "port");
             port ← py_int p;
             mret (server, port)) : Res (PyVal * Z) with
      | inl (KeyError key) => (display (Error_exc (KeyError key)) self, inr tt)
      | inl e => (self, inl e)
      | inr (server, port) =>
          let self := set_sock {| sent := []; broken := false |} self in
          match net with
          | Accepted =>
              (display (Banner_logging_to server port)
                 (set_connected true self), inr tt)
          | Raises ConnectionRefusedError =>
              (set_connected false
                 (display (Error_cannot_connect server port) self), inr tt)
          | Raises e => (self, inl e)
          end
      end
  end.

(** Lines 133-137 of [collect_output]: which payload the log fields are
    read from. *)
Definition select_log (payload : dict) : Res PyVal :=
  let failed_modules := dict_get payload (u "failed_modules") VNone in
  if truthy failed_modules then py_getitem failed_modules (u "setup")
  else inr (VDict payload).

(** The text stored under ['log']. *)
Definition log_text (msg : PyVal) (stdout stderr module_stdout module_stderr : str)
    : str :=
  strip (join [0x0A] [py_repr msg; stdout; stderr; module_stdout; module_stderr]).

(** Lines 139-151 of [collect_output]: the fields read from [log] and
    stored into the record [rec]. *)
Definition extract_log (rec : dict) (log : PyVal) : Res dict :=
  rc ← py_get log (u "rc") (VInt 0);
  let rec := <[u "rc" := rc]> rec in
  stdout ← py_get log (u "stdout") (VStr []);
  stderr ← py_get log (u "stderr") (VStr []);
  module_stdout ← py_get log (u "module_stdout") (VStr []);
  module_stderr ← py_get log (u "module_stderr") (VStr []);
  msg ← py_get log (u "msg") (VStr []);
  so ← as_str stdout;
  se ← as_str stderr;
  mo ← as_str module_stdout;
  me ← as_str module_stderr;
  let rec := <[u "log" := VStr (log_text msg so se mo me)]> rec in
  let rec := delete (u "stdout") rec in
  let rec := delete (u "stderr") rec in
  let rec := delete (u "module_stdout") rec in
  let rec := delete (u "module_stderr") rec in
  let rec := delete (u "msg") rec in
  mret rec.

(** The payload as [_clean_results] and [_handle_warnings] leave it. *)
Definition cleaned (result : TaskResult) : dict :=
  _handle_warnings (_clean_results (_result result) (_task_action result)).

(** Lines 128-131 of [collect_output]: the copy of [self.data] with the
    names of the task and of the host. *)
Definition base_record (d : dict) (result : TaskResult) : dict :=
  let rec := <[u "task" := VStr (_task_name result)]> d in
  <[u "host" := VStr (_host_name result)]> rec.

Definition collect_output (result : TaskResult) : M dict :=
  let payload := cleaned result in
  d ← attr "data" data;
  let rec := base_record d result in
  log ← lift (select_log payload);
  lift (extract_log rec log).

(** [self.sock.sendall(bytes)] and [self.sock.send(bytes)]. *)
Definition sendall (bytes : list Z) : M unit := λ self,
  match sock self with
  | None => (self, inl (AttributeError (u "sock")))
  | Some s =>
      if broken s then (self, inl BrokenPipeError)
      else (set_sock {| sent := sent s ++ bytes; broken := broken s |} self,
            inr tt)
  end.

Definition send_output (msg : dict) : M unit :=
  c ← attr "connected" connected;
  if c : bool then
    text ← lift (json_dumps msg);
    let text := replace_newline text in
    _ ← attr "sock" sock;
    bytes ← lift (encode_utf8 text);
    sendall bytes;;
    sendall [0x0A]
  else mret tt.

Definition v2_playbook_on_start (file_name : str) : M unit :=
  d ← attr "data" data;
  modify (set_data (<[u "playbook" := VStr (basename file_name)]> d));;
  d ← attr "data" data;
  send_output (<[u "task" := VStr (u "Playbook start")]> d).

Definition v2_playbook_on_stats (stats : Stats) : M unit :=
  d ← attr "data" data;
  let rec := <[u "task" := VStr (u "Playbook end")]> d in
  let summary : dict :=
    foldl (λ (summary : dict) h, <[h := summarize stats h]> summary) ∅
      (sorted ((map_to_list (processed stats)).*1)) in
  send_output (<[u "stdout" := VDict summary]> rec);;
  d ← attr "data" data;
  session ← lift (py_getitem (VDict d) (u "session"));
  modify (display (Display_session session)).

Definition v2_runner_on_failed (result : TaskResult) : M unit :=
  rec ← collect_output result;
  send_output (<[u "status" := VStr (u "failed")]> rec).

Definition v2_runner_on_ok (result : TaskResult) : M unit :=
  rec ← collect_output result;
  send_output (<[u "status" := VStr (u "success")]> rec).

Definition v2_runner_on_unreachable (result : TaskResult) : M unit :=
  rec ← collect_output result;
  let rec := <[u "status" := VStr (u "unreachable")]> rec in
  send_output (<[u "rc" := VInt (-1)]> rec).

(** ** The host drives the plugin *)

Inductive Event : Type :=
| Playbook_start (file_name : str)
| Playbook_stats (stats : Stats)
| Runner_failed (result : TaskResult)
| Runner_ok (result : TaskResult)
| Runner_unreachable (result : TaskResult).

Definition handle (ev : Event) : M unit :=
  match ev with
  | Playbook_start file_name => v2_playbook_on_start file_name
  | Playbook_stats stats => v2_playbook_on_stats stats
  | Runner_failed result => v2_runner_on_failed result
  | Runner_ok result => v2_runner_on_ok result
  | Runner_unreachable result => v2_runner_on_unreachable result
  end.

(** Between two callbacks the connection may be reset: the socket has
    learnt that the connection is gone, and from then on its writes
    raise. The stretch before that, in which the remote end has closed
    and the kernel still accepts a write, is not a state of this model. *)
Inductive Step : Type :=
| Call (ev : Event)
| Connection_reset.

Definition connection_reset (self : Self) : Self :=
  match sock self with
  | Some s => set_sock {| sent := sent s; broken := true |} self
  | None => self
  end.

(** One step of a run; an exception of a handler ends that handler only. *)
Definition step (self : Self) (st : Step) : Self :=
  match st with
  | Call ev => (handle ev self).1
  | Connection_reset => connection_reset self
  end.

(** A run: the steps that follow [set_options]. *)
Definition lifecycle (steps : list Step) (self : Self) : Self :=
  foldl step self steps.

(** The bytes that have reached the socket. *)
Definition written (self : Self) : list Z :=
  match sock self with
  | Some s => sent s
  | None => []
  end.

(** The line that a record occupies on the wire. *)
Definition wire (rec : dict) : Res (list Z) :=
  text ← json_dumps rec;
  bytes ← encode_utf8 (replace_newline text);
  mret (bytes ++ [0x0A]).

(** A text field of a payload, as the specification reads it: the
    empty string when the key is absent, the string under the key when
    there is one. *)
Definition text_field (ld : dict) (key : str) : option str :=
  match ld !! key with
  | None => Some []
  | Some (VStr s) => Some s
  | Some _ => None
  end.

(** [self.data], if it has been assigned, holds the session [uuid4]. *)
Definition session_is (uuid4 : str) (self : Self) : Prop :=
  ∀ d, data self = Some d → d !! u "session" = Some (VStr uuid4).

(** From [self] to [self'] the socket has received nothing, or else one
    line: that of a record with the session of [self.data], sent while
    the instance was marked connected. *)
Definition one_line_at_most (self self' : Self) : Prop :=
  written self' = written self
  ∨ ∃ d rec line,
      connected self = Some true
      ∧ data self = Some d
      ∧ rec !! u "session" = d !! u "session"
      ∧ wire rec = inr line
      ∧ written self' = written self ++ line.

End Callback.

(** ** Notions for the further properties *)

(** A code point that UTF-8 cannot encode. *)
Definition is_surrogate (c : Z) : bool := (0xD800 <=? c) && (c <=? 0xDFFF).

(** A code point of a Python [str]. *)
Definition is_code_point (c : Z) : bool := (0 <=? c) && (c <=? 0x10FFFF).

Definition is_ascii (c : Z) : bool := (0 <=? c) && (c <? 0x80).

Definition is_byte (b : Z) : bool := (0 <=? b) && (b <? 0x100).

(** The mapping that the loop of [v2_playbook_on_stats] builds. *)
Definition stats_summary (stats : Stats) : dict :=
  foldl (λ (summary : dict) h, <[h := summarize stats h]> summary) ∅
    (sorted ((map_to_list (processed stats)).*1)).

(** The keys that [collect_output] pops from its record. *)
Definition popped_keys : list str :=
  [u "stdout"; u "stderr"; u "module_stdout"; u "module_stderr"; u "msg"].

(** The keys that [collect_output] assigns in its record. *)
Definition assigned_keys : list str := [u "task"; u "host"; u "rc"; u "log"].

(** The instance has no socket that can still be written to. *)
Definition closed_or_absent (self : Self) : Prop :=
  match sock self with
  | Some s => broken s = true
  | None => True
  end.

(** The number of newline bytes among [bs]. *)
Definition newlines (bs : list Z) : nat :=
  List.length (filter (λ b, b = 0x0A) bs).

(** The number of callbacks among the steps of a run. *)
Fixpoint calls (steps : list Step) : nat :=
  match steps with
  | [] => 0
  | Call _ :: steps' => S (calls steps')
  | Connection_reset :: steps' => calls steps'
  end.

(** ** A concrete host and concrete inputs, for the runs evaluated below *)

Module Sample.

(** [int] of a string of decimal digits. *)
Definition decimal (s : str) : Res Z :=
  match s with
  | [] => inl ValueError
  | _ =>
      if forallb (λ c, (0x30 <=? c) && (c <=? 0x39)) s
      then inr (foldl (λ acc c, 10 * acc + (c - 0x30)) 0 s)
      else inl ValueError
  end.

(** One field of a record, on a line of its own. *)
Definition field (rec : dict) (key : string) : str :=
  match rec !! u key with
  | Some (VStr s) => u key ++ u ": " ++ s ++ [0x0A]
  | Some (VInt z) => u key ++ u ": " ++ u (pretty z) ++ [0x0A]
  | _ => []
  end.

(** An encoder that lays a record out over several lines. *)
Definition dumps (rec : dict) : Res str :=
  inr (u "{" ++ [0x0A]
       ++ field rec "session" ++ field rec "user" ++ field rec "playbook"
       ++ field rec "task" ++ field rec "host" ++ field rec "rc"
       ++ field rec "log" ++ field rec "status"
       ++ u "}").

Definition host : Host := {|
  json_dumps := dumps;
  _clean_results := λ payload _, payload;
  _handle_warnings := λ payload, delete (u "warnings") payload;
  repr_other := λ _, u "<object>";
  int_literal := decimal
|}.

Definition options : dict :=
  <[u "server" := VStr (u "localhost")]> (<[u "port" := VInt 5000]> ∅).

Definition options_without_server : dict := <[u "port" := VInt 5000]> ∅.

Definition uuid4 : str := u "0b0f6a52-5c0e-4f0e-9d55-0a7a3f1c2d11".

Definition login : Res str := inr (u "deploy").

(** The task result of the end-to-end scenario: [{rc: 2, stdout: "out",
    stderr: "err"}] for host [web1] and task [install package]. *)
Definition failed_result : TaskResult := {|
  _result := <[u "rc" := VInt 2]>
               (<[u "stdout" := VStr (u "out")]>
                  (<[u "stderr" := VStr (u "err")]> ∅));
  _task_action := VStr (u "package");
  _task_name := u "install package";
  _host_name := u "web1"
|}.

(** A failed fact-gathering: the log fields sit under
    [failed_modules.setup], and the top level has fields of its own. *)
Definition setup_result : TaskResult := {|
  _result := <[u "failed_modules" :=
                 VDict (<[u "setup" :=
                            VDict (<[u "rc" := VInt 1]>
                                     (<[u "msg" := VStr (u "no python")]> ∅))]> ∅)]>
               (<[u "rc" := VInt 7]> (<[u "stdout" := VStr (u "top")]> ∅));
  _task_action := VStr (u "gather_facts");
  _task_name := u "Gathering Facts";
  _host_name := u "db1"
|}.

(** [failed_modules] names another module than [setup]. *)
Definition other_module_result : TaskResult := {|
  _result := <[u "failed_modules" :=
                 VDict (<[u "network" := VDict ∅]> ∅)]> ∅;
  _task_action := VStr (u "gather_facts");
  _task_name := u "Gathering Facts";
  _host_name := u "db1"
|}.

(** [failed_modules] is present and empty. *)
Definition empty_failed_result : TaskResult := {|
  _result := <[u "failed_modules" := VDict ∅]>
               (<[u "stdout" := VStr (u "top")]> ∅);
  _task_action := VStr (u "gather_facts");
  _task_name := u "Gathering Facts";
  _host_name := u "db1"
|}.

Definition stats : Stats := {|
  processed := <[u "web1" := VInt 1]> (<[u "db1" := VInt 1]> ∅);
  summarize := λ h, VDict (<[u "ok" := VInt 1]> ∅)
|}.

(** The instance once [set_options] has connected. *)
Definition connected_self : Self :=
  (set_options (H := host) options uuid4 login Accepted init).1.

(** The instance once the connection has been refused. *)
Definition refused_self : Self :=
  (set_options (H := host) options uuid4 login
     (Raises ConnectionRefusedError) init).1.

(** The instance once [set_options] has missed the [server] option. *)
Definition unconfigured_self : Self :=
  (set_options (H := host) options_without_server uuid4 login Accepted init).1.

(** What [set_options] stores into [self.data]. *)
Definition session_data : dict :=
  <[u "session" := VStr uuid4]> (<[u "user" := VStr (u "deploy")]> ∅).

(** A run: the callbacks of one playbook, the connection being reset
    before the last of them. *)
Definition steps : list Step :=
  [Call (Playbook_start (u "/srv/plays/site.yml"));
   Call (Runner_failed failed_result);
   Call (Runner_unreachable setup_result);
   Call (Runner_ok other_module_result);
   Connection_reset;
   Call (Playbook_stats stats)].

(** The record of a result, or the empty record when [collect_output]
    raises. *)
Definition record_of (result : TaskResult) (self : Self) : dict :=
  match (collect_output (H := host) result self).2 with
  | inr rec => rec
  | inl _ => ∅
  end.

(** A host whose encoder rejects every record. *)
Definition rejecting_host : Host := {|
  json_dumps := λ _, inl TypeError;
  _clean_results := λ payload _, payload;
  _handle_warnings := λ payload, delete (u "warnings") payload;
  repr_other := λ _, u "<object>";
  int_literal := decimal
|}.

(** The text of a record under [dumps]. *)
Definition text_of (rec : dict) : str :=
  match dumps rec with
  | inr text => text
  | inl _ => []
  end.

(** The connected instance once the connection has been reset. *)
Definition closed_self : Self := connection_reset connected_self.

(** The instance after the first callback of a run. *)
Definition started_self : Self :=
  (v2_playbook_on_start (H := host) (u "/srv/plays/site.yml")
     connected_self).1.

(** Options whose port is not a number. *)
Definition options_bad_port : dict :=
  <[u "server" := VStr (u "localhost")]> (<[u "port" := VStr (u "http")]> ∅).

(** A result without any output. *)
Definition silent_result : TaskResult := {|
  _result := <[u "changed" := VBool false]> ∅;
  _task_action := VStr (u "ping");
  _task_name := u "ping";
  _host_name := u "web1"
|}.

End Sample.

(** ** Properties *)

Section Properties.

Context `{Host}.

(** Two distinct literals of the source are distinct keys. *)
Ltac keys := solve [ intros ?; discriminate | vm_compute; congruence ].

(** Lookups through the inserts and deletes of the source. *)
Ltac look :=
  repeat first
    [ rewrite lookup_insert_eq
    | rewrite lookup_insert_ne by keys
    | rewrite lookup_delete_ne by keys ].

(** *** Built-ins *)

Lemma lor_high_bit (hi x : Z) :
  Z.testbit hi 7 = true → Z.lor hi x ≠ 0x0A.
Proof.
  intros Hhi Heq.
  assert (Hbit : Z.testbit (Z.lor hi x) 7 = Z.testbit 0x0A 7) by (by rewrite Heq).
  rewrite Z.lor_spec, Hhi in Hbit. discriminate Hbit.
Qed.

Lemma utf8_char_no_newline (c : Z) (bs : list Z) :
  c ≠ 0x0A → utf8_char c = inr bs → 0x0A ∉ bs.
Proof.
  intros Hc. unfold utf8_char.
  repeat case_match; intros Hbs; simplify_eq;
    rewrite ?not_elem_of_cons; repeat split;
    try apply not_elem_of_nil; try (intros ?; subst; by apply Hc);
    by (intros Heq; symmetry in Heq; revert Heq; apply lor_high_bit).
Qed.

Lemma encode_utf8_no_newline (s : str) (bs : list Z) :
  0x0A ∉ s → encode_utf8 s = inr bs → 0x0A ∉ bs.
Proof.
  revert bs. induction s as [|c s IH]; intros bs Hs; simpl.
  - intros [= <-]. apply not_elem_of_nil.
  - apply not_elem_of_cons in Hs as [Hc Hs].
    destruct (utf8_char c) as [e|b] eqn:Hb; [discriminate|].
    destruct (encode_utf8 s) as [e|bs'] eqn:Hbs'; [discriminate|].
    simpl. intros [= <-]. rewrite elem_of_app. intros [Hin|Hin].
    + by eapply utf8_char_no_newline in Hin.
    + by eapply IH in Hin.
Qed.

Lemma replace_newline_no_newline (s : str) : 0x0A ∉ replace_newline s.
Proof.
  unfold replace_newline. intros (c & Hc & _)%list_elem_of_fmap.
  destruct (Z.eqb_spec c 0x0A); [discriminate | by subst].
Qed.

Lemma truthy_dict_lookup (d : dict) (key : str) (v : PyVal) :
  d !! key = Some v → truthy (VDict d) = true.
Proof.
  intros Hk. simpl. destruct (map_to_list d) eqn:Hl; [|done].
  apply map_to_list_empty_iff in Hl. subst. by rewrite lookup_empty in Hk.
Qed.

(** *** The monad *)

Lemma bind_run {A B : Type} (m : M A) (f : A → M B) (self : Self) :
  (m ≫= f) self =
  match m self with
  | (self', inr a) => f a self'
  | (self', inl e) => (self', inl e)
  end.
Proof. reflexivity. Qed.

Lemma attr_run {A : Type} (name : string) (get : Self → option A)
    (self : Self) (a : A) :
  get self = Some a → attr name get self = (self, inr a).
Proof. unfold attr. by intros ->. Qed.

Lemma attr_unset {A : Type} (name : string) (get : Self → option A)
    (self : Self) :
  get self = None → attr name get self = (self, inl (AttributeError (u name))).
Proof. unfold attr. by intros ->. Qed.

(** *** [send_output] *)

(** What a call of [send_output] can do: return at once because the
    instance is marked as not connected, raise and leave everything as it
    was, or append the line of the record to the socket. *)
Lemma send_output_cases (msg : dict) (self : Self) :
  (connected self = Some false ∧ send_output msg self = (self, inr tt))
  ∨ (∃ e, send_output msg self = (self, inl e))
  ∨ (∃ s line,
        connected self = Some true ∧ sock self = Some s ∧ wire msg = inr line
        ∧ send_output msg self
          = (set_sock {| sent := sent s ++ line; broken := false |} self,
             inr tt)).
Proof.
  unfold send_output, wire, attr, lift, sendall, mbind, M_bind, Res_bind,
    mret, M_ret, Res_ret. cbv beta.
  destruct (connected self) as [[]|] eqn:Hc; [|by left|by right; left; eexists].
  right. cbv beta iota.
  destruct (json_dumps msg) as [e|text]; [by left; eexists|].
  cbv beta iota.
  destruct (sock self) as [s|] eqn:Hs; [|by left; eexists].
  cbv beta iota.
  destruct (encode_utf8 (replace_newline text)) as [e|bytes];
    [by left; eexists|].
  cbv beta iota. rewrite Hs.
  destruct (broken s) eqn:Hb; [by left; eexists|].
  right. exists s, (bytes ++ [0x0A]). simpl.
  repeat split; [done..|].
  unfold set_sock. simpl. by rewrite app_assoc.
Qed.

(** *** [collect_output] *)

Lemma extract_log_inv (rec0 : dict) (log : PyVal) (rec : dict) :
  extract_log rec0 log = inr rec →
  ∃ (ld : dict) (so se mo me : str),
    log = VDict ld
    ∧ dict_get ld (u "stdout") (VStr []) = VStr so
    ∧ dict_get ld (u "stderr") (VStr []) = VStr se
    ∧ dict_get ld (u "module_stdout") (VStr []) = VStr mo
    ∧ dict_get ld (u "module_stderr") (VStr []) = VStr me
    ∧ rec =
        delete (u "msg")
          (delete (u "module_stderr")
             (delete (u "module_stdout")
                (delete (u "stderr")
                   (delete (u "stdout")
                      (<[u "log" :=
                           VStr (log_text (dict_get ld (u "msg") (VStr []))
                                   so se mo me)]>
                         (<[u "rc" := dict_get ld (u "rc") (VInt 0)]> rec0)))))).
Proof.
  unfold extract_log. destruct log as [| | | | |ld]; try discriminate.
  simpl.
  destruct (dict_get ld (u "stdout") (VStr [])) as [| | |so| |] eqn:Hso;
    try discriminate.
  destruct (dict_get ld (u "stderr") (VStr [])) as [| | |se| |] eqn:Hse;
    try discriminate.
  destruct (dict_get ld (u "module_stdout") (VStr [])) as [| | |mo| |] eqn:Hmo;
    try discriminate.
  destruct (dict_get ld (u "module_stderr") (VStr [])) as [| | |me| |] eqn:Hme;
    try discriminate.
  simpl. intros [= <-]. by exists ld, so, se, mo, me.
Qed.

Lemma extract_log_typed (rec0 ld : dict) (so se mo me : str) :
  dict_get ld (u "stdout") (VStr []) = VStr so →
  dict_get ld (u "stderr") (VStr []) = VStr se →
  dict_get ld (u "module_stdout") (VStr []) = VStr mo →
  dict_get ld (u "module_stderr") (VStr []) = VStr me →
  extract_log rec0 (VDict ld) =
  inr (delete (u "msg")
         (delete (u "module_stderr")
            (delete (u "module_stdout")
               (delete (u "stderr")
                  (delete (u "stdout")
                     (<[u "log" :=
                          VStr (log_text (dict_get ld (u "msg") (VStr []))
                                  so se mo me)]>
                        (<[u "rc" := dict_get ld (u "rc") (VInt 0)]> rec0))))))).
Proof.
  intros Hso Hse Hmo Hme. unfold extract_log. simpl.
  by rewrite Hso, Hse, Hmo, Hme.
Qed.

Lemma collect_output_run (result : TaskResult) (self : Self) (d : dict) :
  data self = Some d →
  collect_output result self =
  (self, log ← select_log (cleaned result);
         extract_log (base_record d result) log).
Proof.
  intros Hd. unfold collect_output. rewrite bind_run.
  rewrite (attr_run _ _ _ _ Hd). cbn beta zeta. rewrite bind_run.
  unfold lift. by destruct (select_log (cleaned result)).
Qed.

Lemma collect_output_unset (result : TaskResult) (self : Self) :
  data self = None →
  collect_output result self = (self, inl (AttributeError (u "data"))).
Proof.
  intros Hd. unfold collect_output. rewrite bind_run.
  by rewrite (attr_unset _ _ _ Hd).
Qed.

(** [collect_output] reads the instance and never writes to it. *)
Lemma collect_output_state (result : TaskResult) (self : Self) :
  (collect_output result self).1 = self.
Proof.
  destruct (data self) as [d|] eqn:Hd.
  - by rewrite (collect_output_run _ _ _ Hd).
  - by rewrite (collect_output_unset _ _ Hd).
Qed.

Lemma collect_output_inv (result : TaskResult) (self self' : Self) (rec : dict) :
  collect_output result self = (self', inr rec) →
  self' = self
  ∧ ∃ (d : dict) (log : PyVal),
      data self = Some d
      ∧ select_log (cleaned result) = inr log
      ∧ extract_log (base_record d result) log = inr rec.
Proof.
  intros Hrun. destruct (data self) as [d|] eqn:Hd.
  - rewrite (collect_output_run _ _ _ Hd) in Hrun.
    injection Hrun as <- Hr. split; [done|].
    destruct (select_log (cleaned result)) as [e|log]; [discriminate|].
    by exists d, log.
  - by rewrite (collect_output_unset _ _ Hd) in Hrun.
Qed.

(** *** The handlers *)

(** [send_output] touches nothing but the socket, and what it appends is
    the line of the record it was given. *)
Lemma send_output_effect (msg : dict) (self : Self) :
  data (send_output msg self).1 = data self
  ∧ connected (send_output msg self).1 = connected self
  ∧ (written (send_output msg self).1 = written self
     ∨ ∃ line,
         connected self = Some true
         ∧ wire msg = inr line
         ∧ written (send_output msg self).1 = written self ++ line).
Proof.
  destruct (send_output_cases msg self)
    as [[_ ->]|[[e ->]|(s & line & Hc & Hs & Hw & ->)]]; simpl;
    [by auto..|].
  split; [done|]. split; [done|]. right. exists line.
  split; [done|]. split; [done|].
  unfold written. simpl. by rewrite Hs.
Qed.

(** The records of the task handlers keep the session of [self.data]. *)
Lemma extract_log_session (rec0 : dict) (log : PyVal) (rec : dict) :
  extract_log rec0 log = inr rec →
  rec !! u "session" = rec0 !! u "session".
Proof.
  intros (ld & so & se & mo & me & _ & _ & _ & _ & _ & ->)%extract_log_inv.
  by look.
Qed.

Lemma base_record_session (d : dict) (result : TaskResult) :
  base_record d result !! u "session" = d !! u "session".
Proof. unfold base_record. by look. Qed.

(** A handler that sends the record of a task result, extended by [f]. *)
Lemma runner_effect (f : dict → dict) (result : TaskResult) (self : Self) :
  (∀ rec, f rec !! u "session" = rec !! u "session") →
  let self' := ((rec ← collect_output result; send_output (f rec)) self).1 in
  connected self' = connected self
  ∧ data self' = data self
  ∧ one_line_at_most self self'.
Proof.
  intros Hf. cbv zeta. rewrite bind_run.
  destruct (collect_output result self) as [self1 [e|rec0]] eqn:Hrun.
  { pose proof (collect_output_state result self) as Hst.
    rewrite Hrun in Hst. simpl in *. subst. by repeat split; [..|left]. }
  apply collect_output_inv in Hrun as (-> & d & log & Hd & Hlog & Hrec).
  destruct (send_output_effect (f rec0) self) as (Hdata & Hconn & Hw).
  split; [done|]. split; [done|].
  destruct Hw as [Hw|(line & Hc & Hline & Hw)]; [by left|].
  right. exists d, (f rec0), line. repeat (split; [done|]).
  split; [|done].
  by rewrite Hf, (extract_log_session _ _ _ Hrec), base_record_session.
Qed.

Lemma playbook_start_effect (file_name : str) (self : Self) :
  let self' := (v2_playbook_on_start file_name self).1 in
  connected self' = connected self
  ∧ data self' = insert (u "playbook") (VStr (basename file_name)) <$> data self
  ∧ one_line_at_most self self'.
Proof.
  cbv zeta. unfold v2_playbook_on_start. rewrite bind_run.
  destruct (data self) as [d|] eqn:Hd;
    [rewrite (attr_run _ _ _ _ Hd)
    |rewrite (attr_unset _ _ _ Hd); simpl; by repeat split; [..|left]].
  set (d' := <[u "playbook" := VStr (basename file_name)]> d).
  rewrite bind_run. unfold modify. cbv beta iota.
  set (self1 := set_data d' self).
  rewrite bind_run, (attr_run _ _ self1 d') by done.
  destruct (send_output_effect (<[u "task" := VStr (u "Playbook start")]> d') self1)
    as (Hdata & Hconn & Hw).
  split; [done|]. split; [done|].
  destruct Hw as [Hw|(line & Hc & Hline & Hw)]; [by left|].
  right. eexists d, _, line.
  split; [done|]. split; [done|]. split; [|by split].
  subst d'. by look.
Qed.

Lemma playbook_stats_effect (stats : Stats) (self : Self) :
  let self' := (v2_playbook_on_stats stats self).1 in
  connected self' = connected self
  ∧ data self' = data self
  ∧ one_line_at_most self self'.
Proof.
  cbv zeta. unfold v2_playbook_on_stats. rewrite bind_run.
  destruct (data self) as [d|] eqn:Hd;
    [rewrite (attr_run _ _ _ _ Hd)
    |rewrite (attr_unset _ _ _ Hd); simpl; by repeat split; [..|left]].
  cbv zeta. rewrite bind_run.
  match goal with |- context [send_output ?m self] => set (msg := m) end.
  destruct (send_output_effect msg self) as (Hdata & Hconn & Hw).
  assert (Hsess : msg !! u "session" = d !! u "session") by (subst msg; by look).
  assert (Hemit : one_line_at_most self (send_output msg self).1).
  { destruct Hw as [Hw|(line & Hc & Hline & Hw)]; [by left|].
    right. by exists d, msg, line. }
  unfold one_line_at_most in *. rewrite Hd in Hdata.
  destruct (send_output msg self) as [self1 [e|[]]]; simpl in *; [by auto|].
  rewrite bind_run, (attr_run _ _ self1 d) by done.
  rewrite bind_run. unfold lift, py_getitem.
  destruct (d !! u "session"); simpl; by auto.
Qed.

(** What one callback does to the instance: the connection flag stays,
    [self.data] changes only at the start of the playbook, and the socket
    receives at most one line. *)
Lemma handle_effect (ev : Event) (self : Self) :
  let self' := (handle ev self).1 in
  connected self' = connected self
  ∧ data self' =
      match ev with
      | Playbook_start file_name =>
          insert (u "playbook") (VStr (basename file_name)) <$> data self
      | _ => data self
      end
  ∧ one_line_at_most self self'.
Proof.
  destruct ev as [file_name|stats|result|result|result]; simpl;
    [apply playbook_start_effect|apply playbook_stats_effect|..].
  - apply (runner_effect (insert (u "status") (VStr (u "failed")))).
    intros rec. by look.
  - apply (runner_effect (insert (u "status") (VStr (u "success")))).
    intros rec. by look.
  - apply (runner_effect
             (λ rec, <[u "rc" := VInt (-1)]>
                       (<[u "status" := VStr (u "unreachable")]> rec))).
    intros rec. by look.
Qed.

(** *** Runs *)

Lemma step_connected (self : Self) (st : Step) :
  connected (step self st) = connected self.
Proof.
  destruct st as [ev|]; simpl.
  - by destruct (handle_effect ev self) as (? & _).
  - unfold connection_reset. by destruct (sock self).
Qed.

Lemma lifecycle_connected (steps : list Step) (self : Self) :
  connected (lifecycle steps self) = connected self.
Proof.
  unfold lifecycle. revert self.
  induction steps as [|st steps IH]; intros self; simpl; [done|].
  by rewrite IH, step_connected.
Qed.

Lemma step_one_line (self : Self) (st : Step) :
  one_line_at_most self (step self st).
Proof.
  destruct st as [ev|]; simpl.
  - by destruct (handle_effect ev self) as (_ & _ & ?).
  - left. unfold connection_reset, written.
    destruct (sock self) eqn:Hsock; simpl; by rewrite ?Hsock.
Qed.

(** Nothing reaches the socket unless the instance is marked connected. *)
Lemma lifecycle_unconnected (steps : list Step) (self : Self) :
  connected self ≠ Some true →
  written (lifecycle steps self) = written self.
Proof.
  unfold lifecycle. revert self.
  induction steps as [|st steps IH]; intros self Hc; simpl; [done|].
  rewrite IH by (by rewrite step_connected).
  by destruct (step_one_line self st) as [?|(? & ? & ? & ? & _)].
Qed.

Lemma step_session (uuid4 : str) (self : Self) (st : Step) :
  session_is uuid4 self → session_is uuid4 (step self st).
Proof.
  intros Hs d. destruct st as [ev|]; simpl.
  - destruct (handle_effect ev self) as (_ & -> & _).
    destruct ev; try apply Hs.
    destruct (data self) as [d0|] eqn:Hd; [|done].
    simpl. intros [= <-]. look. by apply Hs.
  - unfold connection_reset. destruct (sock self); apply Hs.
Qed.

Lemma lifecycle_written (uuid4 : str) (steps : list Step) (self : Self) :
  session_is uuid4 self →
  ∃ recs lines,
    Forall2 (λ rec line, wire rec = inr line) recs lines
    ∧ Forall (λ rec, rec !! u "session" = Some (VStr uuid4)) recs
    ∧ written (lifecycle steps self) = written self ++ List.concat lines.
Proof.
  unfold lifecycle. revert self.
  induction steps as [|st steps IH]; intros self Hs; simpl.
  - exists [], []. by rewrite app_nil_r.
  - destruct (IH (step self st) (step_session _ _ _ Hs))
      as (recs & lines & Hwire & Hrecs & Hw).
    destruct (step_one_line self st)
      as [Hst|(d & rec & line & _ & Hd & Hrec & Hline & Hst)].
    + exists recs, lines. by rewrite Hw, Hst.
    + exists (rec :: recs), (line :: lines).
      rewrite (Hs _ Hd) in Hrec.
      repeat split; [by constructor..|].
      by rewrite Hw, Hst, <- app_assoc.
Qed.

(** *** [set_options] *)

Lemma set_options_session (options : dict) (uuid4 : str) (login : Res str)
    (net : Connect) :
  session_is uuid4 (set_options options uuid4 login net init).1.
Proof.
  assert (Hs : ∀ user, session_is uuid4
            (set_data (<[u "session" := VStr uuid4]>
                         (<[u "user" := VStr user]> ∅)) init)).
  { intros user d [= <-]. by look. }
  unfold set_options. destruct login as [e|user]; [by intros ?|].
  destruct (_ : Res (PyVal * Z)) as [[]|[server port]];
    try apply Hs.
  destruct net as [|[]]; apply Hs.
Qed.

Lemma set_options_refused (options : dict) (uuid4 user : str)
    (server p : PyVal) (port : Z) (self0 : Self) :
  options !! u "server" = Some server →
  options !! u "port" = Some p →
  py_int p = inr port →
  set_options options uuid4 (inr user) (Raises ConnectionRefusedError) self0
  = (set_connected false
       (display (Error_cannot_connect server port)
          (set_sock {| sent := []; broken := false |}
             (set_data (<[u "session" := VStr uuid4]>
                          (<[u "user" := VStr user]> ∅)) self0))),
     inr tt).
Proof.
  intros Hserver Hport Hint. unfold set_options, get_option, py_getitem.
  rewrite Hserver. simpl. rewrite Hport. simpl. by rewrite Hint.
Qed.

Lemma set_options_missing (options : dict) (uuid4 user : str) (net : Connect)
    (self0 : Self) (key : str) :
  (key = u "server" ∧ options !! u "server" = None)
  ∨ (key = u "port" ∧ is_Some (options !! u "server")
     ∧ options !! u "port" = None) →
  set_options options uuid4 (inr user) net self0
  = (display (Error_exc (KeyError key))
       (set_data (<[u "session" := VStr uuid4]>
                    (<[u "user" := VStr user]> ∅)) self0),
     inr tt).
Proof.
  unfold set_options, get_option, py_getitem.
  intros [[-> Hserver]|(-> & [server Hserver] & Hport)]; rewrite Hserver; simpl;
    [done|]. by rewrite Hport.
Qed.

Lemma text_field_get (ld : dict) (key s : str) :
  text_field ld key = Some s → dict_get ld key (VStr []) = VStr s.
Proof.
  unfold text_field, dict_get. destruct (ld !! key) as [[]|]; simpl; congruence.
Qed.

Lemma get_text_field (ld : dict) (key s : str) :
  dict_get ld key (VStr []) = VStr s → text_field ld key = Some s.
Proof.
  unfold text_field, dict_get. destruct (ld !! key) as [[]|]; simpl; congruence.
Qed.

Lemma set_options_written (options : dict) (uuid4 : str) (login : Res str)
    (net : Connect) :
  written (set_options options uuid4 login net init).1 = [].
Proof.
  unfold set_options. destruct login as [e|user]; [done|].
  destruct (_ : Res (PyVal * Z)) as [[]|[server port]]; try done.
  by destruct net as [|[]].
Qed.

(** *** The claims *)

(** C1. When the connection attempt of [set_options] is refused, every
    later call of [send_output], after any run of callbacks and whatever
    the record, returns normally and leaves the instance, and with it the
    socket, exactly as it was: it performs no socket operation. *)
Theorem refused_send_output_noop (options : dict) (uuid4 user : str)
    (server p : PyVal) (port : Z) (self0 : Self) (steps : list Step)
    (msg : dict) :
  options !! u "server" = Some server →
  options !! u "port" = Some p →
  py_int p = inr port →
  let self :=
    lifecycle steps
      (set_options options uuid4 (inr user)
         (Raises ConnectionRefusedError) self0).1 in
  send_output msg self = (self, inr tt).
Proof.
  intros Hserver Hport Hint self.
  assert (Hc : connected self = Some false).
  { subst self. rewrite lifecycle_connected.
    by rewrite (set_options_refused _ _ _ _ _ _ _ Hserver Hport Hint). }
  unfold send_output. by rewrite bind_run, (attr_run _ _ _ _ Hc).
Qed.

(** C2. A record sent while connected reaches the socket as a body without
    any newline byte, followed by one newline byte; the body is the UTF-8
    encoding of the serialized text with its newlines replaced. *)
Theorem send_output_one_line (msg : dict) (self self' : Self) :
  connected self = Some true →
  send_output msg self = (self', inr tt) →
  ∃ text body,
    json_dumps msg = inr text
    ∧ encode_utf8 (replace_newline text) = inr body
    ∧ (0x0A ∉ body)
    ∧ written self' = written self ++ body ++ [0x0A].
Proof.
  intros Hc Hrun.
  destruct (send_output_cases msg self)
    as [[Hf _]|[[e He]|(s & line & _ & Hs & Hw & Hsend)]];
    [congruence..|].
  rewrite Hsend in Hrun. injection Hrun as <-.
  unfold wire in Hw. destruct (json_dumps msg) as [e|text]; [discriminate|].
  simpl in Hw.
  destruct (encode_utf8 (replace_newline text)) as [e|body] eqn:Hbody;
    [discriminate|].
  injection Hw as <-. exists text, body.
  split; [done|]. split; [done|]. split.
  - eapply encode_utf8_no_newline; [apply replace_newline_no_newline|done].
  - unfold written. simpl. by rewrite Hs.
Qed.

(** C3. After [set_options], whatever callbacks follow, the bytes written
    to the socket are the lines of records that all carry, under
    ['session'], the UUID that [set_options] generated. *)
Theorem session_constant (options : dict) (uuid4 : str) (login : Res str)
    (net : Connect) (steps : list Step) :
  let self1 := (set_options options uuid4 login net init).1 in
  ∃ recs lines,
    Forall2 (λ rec line, wire rec = inr line) recs lines
    ∧ Forall (λ rec, rec !! u "session" = Some (VStr uuid4)) recs
    ∧ written (lifecycle steps self1) = List.concat lines.
Proof.
  intros self1.
  destruct (lifecycle_written uuid4 steps self1
              (set_options_session options uuid4 login net))
    as (recs & lines & Hwire & Hrecs & Hw).
  exists recs, lines. subst self1.
  by rewrite set_options_written in Hw.
Qed.

(** C4. A record that [v2_runner_on_unreachable] sends has [-1] under
    ['rc'], whatever the payload of the result holds. *)
Theorem unreachable_rc (result : TaskResult) (self self' : Self) :
  connected self = Some true →
  v2_runner_on_unreachable result self = (self', inr tt) →
  ∃ rec line,
    rec !! u "rc" = Some (VInt (-1))
    ∧ rec !! u "status" = Some (VStr (u "unreachable"))
    ∧ wire rec = inr line
    ∧ written self' = written self ++ line.
Proof.
  intros Hc. unfold v2_runner_on_unreachable. rewrite bind_run.
  destruct (collect_output result self) as [self1 [e|rec0]] eqn:Hrun;
    [discriminate|].
  apply collect_output_inv in Hrun as [-> _]. cbv zeta.
  set (rec := <[u "rc" := VInt (-1)]> _). intros Hsend.
  destruct (send_output_cases rec self)
    as [[Hf _]|[[e He]|(s & line & _ & Hs & Hw & Hsend')]];
    [congruence..|].
  rewrite Hsend' in Hsend. injection Hsend as <-.
  exists rec, line. subst rec. look. repeat split; [done|].
  unfold written. simpl. by rewrite Hs.
Qed.

(** With the [server] option missing, [set_options] logs the [KeyError]
    and returns with [self.connected] never assigned; from then on a call
    of [send_output] raises [AttributeError] on that attribute, and
    nothing is written. *)
Theorem missing_option_send_output_raises (uuid4 user : str) (net : Connect)
    (steps : list Step) (msg : dict) :
  let self1 :=
    (set_options (<[u "port" := VInt 5000]> ∅) uuid4 (inr user) net init).1 in
  let self := lifecycle steps self1 in
  shown self1 = [Error_exc (KeyError (u "server"))]
  ∧ connected self1 = None
  ∧ written self = []
  ∧ send_output msg self = (self, inl (AttributeError (u "connected"))).
Proof.
  cbv zeta.
  rewrite (set_options_missing _ uuid4 user net init (u "server"))
    by (left; by look).
  simpl. split; [done|]. split; [done|].
  set (self1 := display _ _).
  assert (Hc : connected (lifecycle steps self1) = None)
    by (by rewrite lifecycle_connected).
  split.
  - by rewrite lifecycle_unconnected.
  - unfold send_output. by rewrite bind_run, (attr_unset _ _ _ Hc).
Qed.

(** C5. In the record of [collect_output], ['rc'] is [0] when the selected
    payload has no ['rc'] key, and the value under that key otherwise. *)
Theorem collect_output_rc (result : TaskResult) (self self' : Self)
    (ld rec : dict) :
  select_log (cleaned result) = inr (VDict ld) →
  collect_output result self = (self', inr rec) →
  (ld !! u "rc" = None → rec !! u "rc" = Some (VInt 0))
  ∧ (∀ v, ld !! u "rc" = Some v → rec !! u "rc" = Some v).
Proof.
  intros Hlog (-> & d & log & Hd & Hlog' & Hrec)%collect_output_inv.
  rewrite Hlog in Hlog'. injection Hlog' as <-.
  apply extract_log_inv in Hrec
    as (ld' & so & se & mo & me & [= <-] & _ & _ & _ & _ & ->).
  look. unfold dict_get. split; [by intros ->|by intros v ->].
Qed.

(** C6. When the payload has a ['failed_modules'] entry that holds a
    ['setup'] entry, [collect_output] reads ['rc'], ['msg'], ['stdout'],
    ['stderr'], ['module_stdout'] and ['module_stderr'] from that nested
    payload and from nothing else of the result; when the payload has no
    ['failed_modules'] entry, it reads them from the payload itself. In
    both cases ['rc'] of the record is the ['rc'] of the payload read, [0]
    when absent, and ['log'] is the stripped join of its five texts. *)
Theorem collect_output_source (result : TaskResult) (self : Self) (d : dict) :
  data self = Some d →
  (∀ fm nested,
     cleaned result !! u "failed_modules" = Some (VDict fm) →
     fm !! u "setup" = Some nested →
     collect_output result self
     = (self, extract_log (base_record d result) nested))
  ∧ (cleaned result !! u "failed_modules" = None →
     collect_output result self
     = (self, extract_log (base_record d result) (VDict (cleaned result))))
  ∧ (∀ ld,
       (∃ fm,
          cleaned result !! u "failed_modules" = Some (VDict fm)
          ∧ fm !! u "setup" = Some (VDict ld))
       ∨ (cleaned result !! u "failed_modules" = None ∧ ld = cleaned result) →
       (∀ so se mo me,
          text_field ld (u "stdout") = Some so →
          text_field ld (u "stderr") = Some se →
          text_field ld (u "module_stdout") = Some mo →
          text_field ld (u "module_stderr") = Some me →
          ∃ rec,
            collect_output result self = (self, inr rec)
            ∧ rec !! u "rc" = Some (default (VInt 0) (ld !! u "rc"))
            ∧ rec !! u "log"
              = Some (VStr (strip (join [0x0A]
                                     [py_repr (default (VStr [])
                                                 (ld !! u "msg"));
                                      so; se; mo; me]))))
       ∧ (∀ self' rec,
            collect_output result self = (self', inr rec) →
            ∃ so se mo me,
              text_field ld (u "stdout") = Some so
              ∧ text_field ld (u "stderr") = Some se
              ∧ text_field ld (u "module_stdout") = Some mo
              ∧ text_field ld (u "module_stderr") = Some me
              ∧ rec !! u "rc" = Some (default (VInt 0) (ld !! u "rc"))
              ∧ rec !! u "log"
                = Some (VStr (strip (join [0x0A]
                                       [py_repr (default (VStr [])
                                                   (ld !! u "msg"));
                                        so; se; mo; me]))))).
Proof.
  intros Hd. rewrite (collect_output_run _ _ _ Hd).
  assert (Hnested : ∀ fm nested,
            cleaned result !! u "failed_modules" = Some (VDict fm) →
            fm !! u "setup" = Some nested →
            select_log (cleaned result) = inr nested).
  { intros fm nested Hfm Hsetup. unfold select_log, dict_get.
    rewrite Hfm. simpl default.
    rewrite (truthy_dict_lookup _ _ _ Hsetup). simpl. by rewrite Hsetup. }
  assert (Htop : cleaned result !! u "failed_modules" = None →
            select_log (cleaned result) = inr (VDict (cleaned result))).
  { intros Hfm. unfold select_log, dict_get. by rewrite Hfm. }
  split; [|split].
  - intros fm nested Hfm Hsetup. by rewrite (Hnested _ _ Hfm Hsetup).
  - intros Hfm. by rewrite (Htop Hfm).
  - intros ld Hsel.
    assert (Hlog : select_log (cleaned result) = inr (VDict ld)).
    { destruct Hsel as [(fm & Hfm & Hsetup)|[Hfm ->]];
        [by apply (Hnested fm)|by apply Htop]. }
    rewrite Hlog. simpl. split.
    + intros so se mo me Hso Hse Hmo Hme.
      rewrite (extract_log_typed _ ld so se mo me)
        by (by apply text_field_get).
      eexists. split; [done|]. by look.
    + intros self' rec [= <- Hrec].
      apply extract_log_inv in Hrec
        as (ld' & so & se & mo & me & [= <-] & Hso & Hse & Hmo & Hme & ->).
      exists so, se, mo, me. repeat (split; [by apply get_text_field|]).
      by look.
Qed.

(** C7. The ['log'] of the record is the stripped join, with newlines, of
    [repr(msg)], [stdout], [stderr], [module_stdout] and [module_stderr]
    in that order, each taken as empty when absent; for the payload
    [{rc: 2, stdout: "out", stderr: "err"}] it is the text ['']\nout\nerr. *)
Theorem collect_output_log (result : TaskResult) (self : Self) (d ld : dict) :
  data self = Some d →
  select_log (cleaned result) = inr (VDict ld) →
  (∀ so se mo me,
     text_field ld (u "stdout") = Some so →
     text_field ld (u "stderr") = Some se →
     text_field ld (u "module_stdout") = Some mo →
     text_field ld (u "module_stderr") = Some me →
     ∃ rec,
       collect_output result self = (self, inr rec)
       ∧ rec !! u "log"
         = Some (VStr (strip (join [0x0A]
                                [py_repr (default (VStr []) (ld !! u "msg"));
                                 so; se; mo; me]))))
  ∧ (∀ self' rec,
       collect_output result self = (self', inr rec) →
       ∃ so se mo me,
         text_field ld (u "stdout") = Some so
         ∧ text_field ld (u "stderr") = Some se
         ∧ text_field ld (u "module_stdout") = Some mo
         ∧ text_field ld (u "module_stderr") = Some me
         ∧ rec !! u "log"
           = Some (VStr (strip (join [0x0A]
                                  [py_repr (default (VStr []) (ld !! u "msg"));
                                   so; se; mo; me]))))
  ∧ (ld = <[u "rc" := VInt 2]>
            (<[u "stdout" := VStr (u "out")]>
               (<[u "stderr" := VStr (u "err")]> ∅)) →
     ∃ rec,
       collect_output result self = (self, inr rec)
       ∧ rec !! u "log"
         = Some (VStr (u "''" ++ [0x0A] ++ u "out" ++ [0x0A] ++ u "err"))).
Proof.
  intros Hd Hlog. rewrite (collect_output_run _ _ _ Hd), Hlog. simpl.
  assert (Hgen : ∀ so se mo me,
     text_field ld (u "stdout") = Some so →
     text_field ld (u "stderr") = Some se →
     text_field ld (u "module_stdout") = Some mo →
     text_field ld (u "module_stderr") = Some me →
     ∃ rec,
       (self, extract_log (base_record d result) (VDict ld)) = (self, inr rec)
       ∧ rec !! u "log"
         = Some (VStr (log_text (dict_get ld (u "msg") (VStr [])) so se mo me))).
  { intros so se mo me Hso Hse Hmo Hme.
    rewrite (extract_log_typed _ ld so se mo me)
      by (by apply text_field_get).
    eexists. split; [done|]. by look. }
  split; [exact Hgen|]. split.
  { intros self' rec [= <- Hrec].
    apply extract_log_inv in Hrec
      as (ld' & so & se & mo & me & [= <-] & Hso & Hse & Hmo & Hme & ->).
    exists so, se, mo, me. repeat (split; [by apply get_text_field|]).
    by look. }
  intros ->.
  destruct (Hgen (u "out") (u "err") [] []) as (rec & Hrun & Hrec);
    [by vm_compute..|].
  exists rec. split; [done|]. rewrite Hrec. by vm_compute.
Qed.

(** C9, as the code has it. No callback changes what [self.data] holds
    under ['session'] and ['user']; the task and statistics callbacks
    leave [self.data] as it is and work on a copy, while
    [v2_playbook_on_start] stores the base name of the playbook into
    [self.data] itself, under ['playbook']. *)
Theorem session_context_frame (ev : Event) (self : Self) :
  let self' := (handle ev self).1 in
  data self' =
    match ev with
    | Playbook_start file_name =>
        insert (u "playbook") (VStr (basename file_name)) <$> data self
    | _ => data self
    end
  ∧ data self' ≫= lookup (u "session") = data self ≫= lookup (u "session")
  ∧ data self' ≫= lookup (u "user") = data self ≫= lookup (u "user").
Proof.
  cbv zeta. destruct (handle_effect ev self) as (_ & Hdata & _).
  split; [done|]. rewrite Hdata.
  destruct ev; try done. destruct (data self) as [d|]; [|done].
  simpl. by look.
Qed.

(** C10. With [self.data] assigned: a ['failed_modules'] entry that is a
    non-empty mapping without a ['setup'] key makes [collect_output] raise
    [KeyError]; a ['failed_modules'] entry whose value is false in a
    condition makes it read the payload itself, the selection raising
    nothing. *)
Theorem failed_modules_without_setup (result : TaskResult) (self : Self)
    (d : dict) :
  data self = Some d →
  (∀ fm,
     cleaned result !! u "failed_modules" = Some (VDict fm) →
     truthy (VDict fm) = true →
     fm !! u "setup" = None →
     collect_output result self = (self, inl (KeyError (u "setup"))))
  ∧ (∀ v,
       cleaned result !! u "failed_modules" = Some v →
       truthy v = false →
       select_log (cleaned result) = inr (VDict (cleaned result))
       ∧ collect_output result self
         = (self,
            extract_log (base_record d result) (VDict (cleaned result)))).
Proof.
  intros Hd. rewrite (collect_output_run _ _ _ Hd). unfold select_log, dict_get.
  split.
  - intros fm -> Hfm Hsetup. simpl default. rewrite Hfm. simpl.
    by rewrite Hsetup.
  - intros v -> Hv. simpl default. by rewrite Hv.
Qed.

End Properties.

(** ** The theorems at concrete inputs *)

Lemma refused_send_output_noop_witness :
  let self := lifecycle (H := Sample.host) Sample.steps Sample.refused_self in
  send_output (H := Sample.host) (_result Sample.failed_result) self
  = (self, inr tt).
Proof.
  apply (refused_send_output_noop (H := Sample.host) Sample.options
           Sample.uuid4 (u "deploy") (VStr (u "localhost")) (VInt 5000) 5000
           init Sample.steps (_result Sample.failed_result));
    reflexivity.
Defined.

Lemma send_output_one_line_witness :
  ∃ text body,
    Sample.dumps Sample.session_data = inr text
    ∧ encode_utf8 (replace_newline text) = inr body
    ∧ (0x0A ∉ body)
    ∧ written (send_output (H := Sample.host) Sample.session_data
                 Sample.connected_self).1
      = written Sample.connected_self ++ body ++ [0x0A].
Proof.
  apply (send_output_one_line (H := Sample.host) Sample.session_data
           Sample.connected_self);
    vm_compute; reflexivity.
Defined.

Lemma unreachable_rc_witness :
  ∃ rec line,
    rec !! u "rc" = Some (VInt (-1))
    ∧ rec !! u "status" = Some (VStr (u "unreachable"))
    ∧ wire (H := Sample.host) rec = inr line
    ∧ written (v2_runner_on_unreachable (H := Sample.host)
                 Sample.setup_result Sample.connected_self).1
      = written Sample.connected_self ++ line.
Proof.
  apply (unreachable_rc (H := Sample.host) Sample.setup_result
           Sample.connected_self);
    vm_compute; reflexivity.
Defined.

Lemma collect_output_rc_witness :
  Sample.record_of Sample.failed_result Sample.connected_self !! u "rc"
  = Some (VInt 2)
  ∧ Sample.record_of Sample.empty_failed_result Sample.connected_self !! u "rc"
    = Some (VInt 0).
Proof.
  split.
  - apply (proj2 (collect_output_rc (H := Sample.host) Sample.failed_result
                    Sample.connected_self Sample.connected_self
                    (_result Sample.failed_result)
                    (Sample.record_of Sample.failed_result
                       Sample.connected_self)
                    ltac:(vm_compute; reflexivity)
                    ltac:(vm_compute; reflexivity))).
    reflexivity.
  - apply (proj1 (collect_output_rc (H := Sample.host)
                    Sample.empty_failed_result
                    Sample.connected_self Sample.connected_self
                    (_result Sample.empty_failed_result)
                    (Sample.record_of Sample.empty_failed_result
                       Sample.connected_self)
                    ltac:(vm_compute; reflexivity)
                    ltac:(vm_compute; reflexivity))).
    reflexivity.
Defined.

Lemma collect_output_source_witness :
  (∃ rec,
     collect_output (H := Sample.host) Sample.setup_result
       Sample.connected_self
     = (Sample.connected_self, inr rec)
     ∧ rec !! u "rc" = Some (VInt 1)
     ∧ rec !! u "log" = Some (VStr (u "'no python'")))
  ∧ (∃ rec,
       collect_output (H := Sample.host) Sample.failed_result
         Sample.connected_self
       = (Sample.connected_self, inr rec)
       ∧ rec !! u "rc" = Some (VInt 2)
       ∧ rec !! u "log"
         = Some (VStr (u "''" ++ [0x0A] ++ u "out" ++ [0x0A] ++ u "err"))).
Proof.
  split.
  - apply (proj1 (proj2 (proj2 (collect_output_source (H := Sample.host)
                                  Sample.setup_result Sample.connected_self
                                  Sample.session_data eq_refl))
                    (<[u "rc" := VInt 1]>
                       (<[u "msg" := VStr (u "no python")]> ∅))
                    (or_introl
                       (ex_intro _
                          (<[u "setup" :=
                               VDict (<[u "rc" := VInt 1]>
                                        (<[u "msg" := VStr (u "no python")]>
                                           ∅))]> ∅)
                          (conj eq_refl eq_refl))))
             [] [] [] []);
      reflexivity.
  - apply (proj1 (proj2 (proj2 (collect_output_source (H := Sample.host)
                                  Sample.failed_result Sample.connected_self
                                  Sample.session_data eq_refl))
                    (cleaned (H := Sample.host) Sample.failed_result)
                    (or_intror (conj eq_refl eq_refl)))
             (u "out") (u "err") [] []);
      reflexivity.
Defined.

Lemma collect_output_log_witness :
  ∃ rec,
    collect_output (H := Sample.host) Sample.failed_result
      Sample.connected_self
    = (Sample.connected_self, inr rec)
    ∧ rec !! u "log"
      = Some (VStr (u "''" ++ [0x0A] ++ u "out" ++ [0x0A] ++ u "err")).
Proof.
  assert (Hlog : select_log (cleaned (H := Sample.host) Sample.failed_result)
                 = inr (VDict (<[u "rc" := VInt 2]>
                                 (<[u "stdout" := VStr (u "out")]>
                                    (<[u "stderr" := VStr (u "err")]> ∅)))))
    by (vm_compute; reflexivity).
  apply (proj2 (proj2 (collect_output_log (H := Sample.host)
                         Sample.failed_result Sample.connected_self
                         Sample.session_data _ eq_refl Hlog))).
  reflexivity.
Defined.

Lemma failed_modules_without_setup_witness :
  collect_output (H := Sample.host) Sample.other_module_result
    Sample.connected_self
  = (Sample.connected_self, inl (KeyError (u "setup")))
  ∧ select_log (cleaned (H := Sample.host) Sample.empty_failed_result)
    = inr (VDict (cleaned (H := Sample.host) Sample.empty_failed_result)).
Proof.
  split.
  - apply (proj1 (failed_modules_without_setup (H := Sample.host)
                    Sample.other_module_result Sample.connected_self
                    Sample.session_data eq_refl)
             (<[u "network" := VDict ∅]> ∅));
      reflexivity.
  - apply (proj2 (failed_modules_without_setup (H := Sample.host)
                    Sample.empty_failed_result Sample.connected_self
                    Sample.session_data eq_refl)
             (VDict ∅));
      reflexivity.
Defined.

(** C9, as the specification has it, fails: the first callback of a run
    changes the session context itself. *)
Lemma session_context_changes :
  data (handle (H := Sample.host) (Playbook_start (u "/srv/plays/site.yml"))
          Sample.connected_self).1
  ≠ data Sample.connected_self.
Proof.
  intros Heq.
  assert (Hk : data (handle (H := Sample.host)
                       (Playbook_start (u "/srv/plays/site.yml"))
                       Sample.connected_self).1 ≫= lookup (u "playbook")
               = data Sample.connected_self ≫= lookup (u "playbook"))
    by (by rewrite Heq).
  vm_compute in Hk. discriminate Hk.
Qed.

(** *** Runs evaluated *)

(** Three callbacks wrote to the socket, one raised in [collect_output],
    and the last one failed on the socket of the reset connection:
    three lines were written. *)
Example run_writes_three_lines :
  List.length (filter (λ b, b = 0x0A)
            (written (lifecycle (H := Sample.host) Sample.steps
                        Sample.connected_self)))
  = 3%nat.
Proof. by vm_compute. Qed.

(** The same run after a refused connection writes nothing. *)
Example refused_run_writes_nothing :
  written (lifecycle (H := Sample.host) Sample.steps Sample.refused_self) = [].
Proof. by vm_compute. Qed.

(** The nested payload wins over the top level: ['rc'] is [1], not [7]. *)
Example setup_result_rc :
  Sample.record_of Sample.setup_result Sample.connected_self !! u "rc"
  = Some (VInt 1).
Proof. by vm_compute. Qed.

(** A truthy ['failed_modules'] that is no mapping raises [TypeError]. *)
Example failed_modules_not_a_mapping :
  select_log (<[u "failed_modules" := VStr (u "setup")]> ∅) = inl TypeError.
Proof. by vm_compute. Qed.

(** With the [port] option missing, the error names that key. *)
Example missing_port_logged :
  shown (set_options (H := Sample.host)
           (<[u "server" := VStr (u "localhost")]> ∅) Sample.uuid4
           Sample.login Accepted init).1
  = [Error_exc (KeyError (u "port"))].
Proof. by vm_compute. Qed.

(** With the [server] option missing, [send_output] raises on the
    attribute that [set_options] never assigned. *)
Example unconfigured_send_output :
  send_output (H := Sample.host) Sample.session_data Sample.unconfigured_self
  = (Sample.unconfigured_self, inl (AttributeError (u "connected"))).
Proof. by vm_compute. Qed.

(** ** Further properties of the plugin *)

Section Further.

Context `{Host}.

Ltac keys := solve [ intros ?; discriminate | vm_compute; congruence ].

Ltac look :=
  repeat first
    [ rewrite lookup_insert_eq
    | rewrite lookup_insert_ne by keys
    | rewrite lookup_delete_ne by keys ].

(** *** Built-ins *)

Lemma basename_from_no_slash (acc p : str) :
  0x2F ∉ acc → 0x2F ∉ basename_from acc p.
Proof.
  revert acc. induction p as [|c p IH]; intros acc Hacc; simpl; [done|].
  destruct (Z.eqb_spec c 0x2F) as [->|Hc].
  - apply IH, not_elem_of_nil.
  - apply IH. rewrite elem_of_app, list_elem_of_singleton.
    intros [?|?]; [done|congruence].
Qed.

Lemma basename_from_plain (acc p : str) :
  0x2F ∉ p → basename_from acc p = acc ++ p.
Proof.
  revert acc. induction p as [|c p IH]; intros acc Hp; simpl.
  - by rewrite app_nil_r.
  - apply not_elem_of_cons in Hp as [Hc Hp].
    destruct (Z.eqb_spec c 0x2F) as [->|_]; [done|].
    by rewrite IH, <- app_assoc.
Qed.

Lemma basename_from_slash (acc dir name : str) :
  basename_from acc (dir ++ 0x2F :: name) = basename_from [] name.
Proof.
  revert acc. induction dir as [|c dir IH]; intros acc; simpl; [done|].
  destruct (c =? 0x2F); apply IH.
Qed.

Lemma lstrip_suffix (s : str) : ∃ pre, s = pre ++ lstrip s.
Proof.
  induction s as [|c s [pre IH]]; simpl; [by exists []|].
  destruct (is_space c); [|by exists []].
  exists (c :: pre). simpl. by rewrite <- IH.
Qed.

Lemma lstrip_head (s : str) (c : Z) :
  head (lstrip s) = Some c → is_space c = false.
Proof.
  induction s as [|x s IH]; simpl; [done|].
  destruct (is_space x) eqn:Hx; [done|]. simpl. by intros [= <-].
Qed.

Lemma strip_last (s : str) (c : Z) :
  last (strip s) = Some c → is_space c = false.
Proof.
  unfold strip, rstrip. rewrite last_reverse. apply lstrip_head.
Qed.

Lemma strip_head (s : str) (c : Z) :
  head (strip s) = Some c → is_space c = false.
Proof.
  unfold strip, rstrip. rewrite head_reverse.
  destruct (lstrip_suffix (reverse (lstrip s))) as [pre Hpre].
  destruct (lstrip (reverse (lstrip s))) as [|x l] eqn:Hl; [done|].
  intros Hlast.
  assert (Hc : last (reverse (lstrip s)) = Some c).
  { rewrite Hpre. by rewrite last_app, Hlast. }
  rewrite last_reverse in Hc. by apply lstrip_head in Hc.
Qed.

Lemma utf8_char_encodes (c : Z) :
  is_surrogate c = false → ∃ bs, utf8_char c = inr bs.
Proof.
  unfold is_surrogate, utf8_char. intros ->.
  repeat case_match; by eexists.
Qed.

Lemma encode_utf8_encodes (s : str) :
  Forall (λ c, is_surrogate c = false) s → ∃ bs, encode_utf8 s = inr bs.
Proof.
  induction 1 as [|c s Hc _ [bs IH]]; simpl; [by eexists|].
  destruct (utf8_char_encodes c Hc) as [b ->]. rewrite IH. by eexists.
Qed.

Lemma encode_utf8_plain (s : str) :
  Forall (λ c, is_ascii c = true) s → encode_utf8 s = inr s.
Proof.
  induction 1 as [|c s Hc _ IH]; simpl; [done|].
  unfold is_ascii in Hc. apply andb_true_iff in Hc as [_ Hc].
  unfold utf8_char. rewrite Hc. simpl. by rewrite IH.
Qed.

Lemma lor_byte (a b : Z) :
  0 ≤ a < 0x100 → 0 ≤ b < 0x100 → 0 ≤ Z.lor a b < 0x100.
Proof.
  intros Ha Hb. split; [apply Z.lor_nonneg; lia|].
  destruct (Z.eq_dec (Z.lor a b) 0) as [->|Hne]; [lia|].
  assert (Hpos : 0 < Z.lor a b)
    by (assert (0 ≤ Z.lor a b) by (apply Z.lor_nonneg; lia); lia).
  change 0x100 with (2 ^ 8). apply Z.log2_lt_pow2; [done|].
  rewrite Z.log2_lor by lia.
  assert (Hlog : ∀ x, 0 ≤ x < 0x100 → Z.log2 x < 8).
  { intros x Hx. destruct (Z.eq_dec x 0) as [->|?]; [done|].
    apply Z.log2_lt_pow2; [lia|]. change (2 ^ 8) with 0x100. lia. }
  apply Z.max_lub_lt; by apply Hlog.
Qed.

Lemma low_six_bits (x : Z) : 0 ≤ Z.land x 0x3F < 0x40.
Proof.
  change 0x3F with (Z.ones 6). rewrite Z.land_ones by lia.
  change (2 ^ 6) with 0x40. apply Z.mod_pos_bound. lia.
Qed.

Lemma utf8_char_bytes (c : Z) (bs : list Z) :
  is_code_point c = true → utf8_char c = inr bs →
  Forall (λ b, is_byte b = true) bs.
Proof.
  unfold is_code_point, utf8_char. intros [Hlo Hhi]%andb_true_iff.
  apply Z.leb_le in Hlo, Hhi.
  assert (Hbyte : ∀ b, 0 ≤ b < 0x100 → is_byte b = true).
  { intros b Hb. unfold is_byte. apply andb_true_iff.
    split; [apply Z.leb_le|apply Z.ltb_lt]; lia. }
  assert (Hcont : ∀ x, is_byte (Z.lor 0x80 (Z.land x 0x3F)) = true).
  { intros x. apply Hbyte, lor_byte; [lia|].
    pose proof (low_six_bits x). lia. }
  destruct (Z.ltb_spec c 0x80).
  { intros [= <-]. repeat constructor. apply Hbyte. lia. }
  destruct (Z.ltb_spec c 0x800).
  { intros [= <-]. repeat constructor; [|apply Hcont].
    apply Hbyte, lor_byte; [lia|]. rewrite Z.shiftr_div_pow2 by lia.
    change (2 ^ 6) with 0x40. split; [apply Z.div_pos; lia|].
    apply Z.div_lt_upper_bound; lia. }
  destruct ((0xD800 <=? c) && (c <=? 0xDFFF)); [done|].
  destruct (Z.ltb_spec c 0x10000).
  { intros [= <-]. repeat constructor; [|apply Hcont..].
    apply Hbyte, lor_byte; [lia|]. rewrite Z.shiftr_div_pow2 by lia.
    change (2 ^ 12) with 0x1000. split; [apply Z.div_pos; lia|].
    apply Z.div_lt_upper_bound; lia. }
  intros [= <-]. repeat constructor; [|apply Hcont..].
  apply Hbyte, lor_byte; [lia|]. rewrite Z.shiftr_div_pow2 by lia.
  change (2 ^ 18) with 0x40000. split; [apply Z.div_pos; lia|].
  apply Z.div_lt_upper_bound; lia.
Qed.

Lemma encode_utf8_bytes (s : str) (bs : list Z) :
  Forall (λ c, is_code_point c = true) s → encode_utf8 s = inr bs →
  Forall (λ b, is_byte b = true) bs.
Proof.
  intros Hs. revert bs. induction Hs as [|c s Hc _ IH]; intros bs; simpl.
  - by intros [= <-].
  - destruct (utf8_char c) as [e|b] eqn:Hb; [done|]. simpl.
    destruct (encode_utf8 s) as [e|bs']; [done|]. simpl.
    intros [= <-]. apply Forall_app. split; [by eapply utf8_char_bytes|by apply IH].
Qed.

Lemma replace_newline_code_points (s : str) :
  Forall (λ c, is_code_point c = true) s →
  Forall (λ c, is_code_point c = true) (replace_newline s).
Proof.
  unfold replace_newline. intros Hs. apply Forall_fmap.
  eapply Forall_impl; [exact Hs|]. intros c Hc. simpl.
  by destruct (c =? 0x0A).
Qed.

Lemma replace_newline_plain (s : str) :
  Forall (λ c, is_ascii c = true) s →
  Forall (λ c, is_ascii c = true) (replace_newline s).
Proof.
  unfold replace_newline. intros Hs. apply Forall_fmap.
  eapply Forall_impl; [exact Hs|]. intros c Hc. simpl.
  by destruct (c =? 0x0A).
Qed.

(** *** [send_output], case by case *)

Ltac run_send_output :=
  unfold send_output, attr, lift, sendall, mbind, M_bind, Res_bind,
    mret, M_ret, Res_ret; cbv beta.

Lemma send_output_sent (msg : dict) (self : Self) (s : Socket)
    (text : str) (body : list Z) :
  connected self = Some true →
  sock self = Some s →
  broken s = false →
  json_dumps msg = inr text →
  encode_utf8 (replace_newline text) = inr body →
  send_output msg self
  = (set_sock {| sent := sent s ++ body ++ [0x0A]; broken := false |} self,
     inr tt).
Proof.
  intros Hc Hs Hb Htext Hbody. run_send_output.
  rewrite Hc, Htext, Hs, Hbody. cbv beta iota. rewrite Hs, Hb. simpl.
  unfold set_sock. simpl. by rewrite app_assoc.
Qed.

Lemma send_output_dumps_error (msg : dict) (self : Self) (e : Exc) :
  connected self = Some true →
  json_dumps msg = inl e →
  send_output msg self = (self, inl e).
Proof. intros Hc He. run_send_output. by rewrite Hc, He. Qed.

Lemma send_output_broken (msg : dict) (self : Self) (s : Socket)
    (text : str) (body : list Z) :
  connected self = Some true →
  sock self = Some s →
  broken s = true →
  json_dumps msg = inr text →
  encode_utf8 (replace_newline text) = inr body →
  send_output msg self = (self, inl BrokenPipeError).
Proof.
  intros Hc Hs Hb Htext Hbody. run_send_output.
  rewrite Hc, Htext, Hs, Hbody. cbv beta iota. by rewrite Hs, Hb.
Qed.

Lemma send_output_closed (msg : dict) (self : Self) :
  closed_or_absent self → (send_output msg self).1 = self.
Proof.
  unfold closed_or_absent. intros Hclosed.
  destruct (send_output_cases msg self)
    as [[_ ->]|[[e ->]|(s & line & _ & Hs & Hw & Hrun)]]; [done..|].
  rewrite Hs in Hclosed. revert Hrun. run_send_output.
  destruct (connected self) as [[]|]; try done.
  destruct (json_dumps msg); [done|]. cbv beta iota. rewrite Hs.
  cbv beta iota. destruct (encode_utf8 _); [done|].
  cbv beta iota. by rewrite Hs, Hclosed.
Qed.

Lemma send_output_not_connected (msg : dict) (self : Self) :
  connected self = Some false → send_output msg self = (self, inr tt).
Proof. intros Hc. run_send_output. by rewrite Hc. Qed.

(** *** The handlers, run *)

Lemma runner_run (f : dict → dict) (result : TaskResult) (self : Self) :
  (rec ← collect_output result; send_output (f rec)) self
  = match (collect_output result self).2 with
    | inr rec => send_output (f rec) self
    | inl e => (self, inl e)
    end.
Proof.
  rewrite bind_run. pose proof (collect_output_state result self) as Hst.
  destruct (collect_output result self) as [self1 [e|rec]]; simpl in *;
    by subst.
Qed.

Lemma playbook_start_run (file_name : str) (self : Self) (d : dict) :
  data self = Some d →
  v2_playbook_on_start file_name self
  = send_output
      (<[u "task" := VStr (u "Playbook start")]>
         (<[u "playbook" := VStr (basename file_name)]> d))
      (set_data (<[u "playbook" := VStr (basename file_name)]> d) self).
Proof.
  intros Hd. unfold v2_playbook_on_start.
  rewrite bind_run, (attr_run _ _ _ _ Hd), bind_run.
  unfold modify. cbv beta iota.
  by rewrite bind_run, (attr_run "data" data (set_data _ self) _ eq_refl).
Qed.

Lemma playbook_stats_run (stats : Stats) (self : Self) (d : dict) :
  data self = Some d →
  v2_playbook_on_stats stats self
  = match send_output
            (<[u "stdout" := VDict (stats_summary stats)]>
               (<[u "task" := VStr (u "Playbook end")]> d)) self with
    | (self', inr _) =>
        match d !! u "session" with
        | Some session => (display (Display_session session) self', inr tt)
        | None => (self', inl (KeyError (u "session")))
        end
    | (self', inl e) => (self', inl e)
    end.
Proof.
  intros Hd. unfold v2_playbook_on_stats, stats_summary.
  rewrite bind_run, (attr_run _ _ _ _ Hd). cbv zeta. rewrite bind_run.
  match goal with |- context [send_output ?m self] => set (msg := m) end.
  destruct (send_output_effect msg self) as (Hdata & _).
  destruct (send_output msg self) as [self' [e|[]]]; simpl in *; [done|].
  rewrite Hd in Hdata.
  rewrite bind_run, (attr_run _ _ self' d Hdata), bind_run.
  unfold lift, py_getitem. by destruct (d !! u "session").
Qed.

Lemma handle_unset (ev : Event) (self : Self) :
  data self = None → handle ev self = (self, inl (AttributeError (u "data"))).
Proof.
  intros Hd.
  destruct ev as [file_name|stats|result|result|result]; simpl.
  - unfold v2_playbook_on_start. by rewrite bind_run, (attr_unset _ _ _ Hd).
  - unfold v2_playbook_on_stats. by rewrite bind_run, (attr_unset _ _ _ Hd).
  - unfold v2_runner_on_failed.
    by rewrite runner_run, (collect_output_unset _ _ Hd).
  - unfold v2_runner_on_ok.
    by rewrite runner_run, (collect_output_unset _ _ Hd).
  - unfold v2_runner_on_unreachable.
    rewrite bind_run. by rewrite (collect_output_unset _ _ Hd).
Qed.

Lemma handle_closed (ev : Event) (self : Self) :
  closed_or_absent self → sock (handle ev self).1 = sock self.
Proof.
  intros Hclosed. destruct (data self) as [d|] eqn:Hd;
    [|by rewrite (handle_unset _ _ Hd)].
  assert (Hrunner : ∀ f result,
            sock ((rec ← collect_output result; send_output (f rec)) self).1
            = sock self).
  { intros f result. rewrite runner_run.
    destruct (collect_output result self).2; [done|].
    by rewrite send_output_closed. }
  destruct ev as [file_name|stats|result|result|result]; simpl.
  - rewrite (playbook_start_run _ _ _ Hd). by rewrite send_output_closed.
  - rewrite (playbook_stats_run _ _ _ Hd).
    match goal with |- context [send_output ?m self] => set (msg := m) end.
    pose proof (send_output_closed msg self Hclosed) as Hst.
    destruct (send_output msg self) as [self' [e|[]]]; simpl in *; subst;
      [done|]. by destruct (d !! u "session").
  - apply (Hrunner (insert (u "status") (VStr (u "failed")))).
  - apply (Hrunner (insert (u "status") (VStr (u "success")))).
  - apply (Hrunner (λ rec, <[u "rc" := VInt (-1)]>
                             (<[u "status" := VStr (u "unreachable")]> rec))).
Qed.

Lemma step_closed (self : Self) (st : Step) :
  closed_or_absent self →
  closed_or_absent (step self st) ∧ written (step self st) = written self.
Proof.
  intros Hclosed. destruct st as [ev|]; simpl.
  - unfold closed_or_absent, written. by rewrite (handle_closed _ _ Hclosed).
  - unfold closed_or_absent, written, connection_reset in *.
    by destruct (sock self) as [s|] eqn:Hs; simpl; rewrite ?Hs.
Qed.

Lemma lifecycle_closed (steps : list Step) (self : Self) :
  closed_or_absent self → written (lifecycle steps self) = written self.
Proof.
  unfold lifecycle. revert self.
  induction steps as [|st steps IH]; intros self Hclosed; simpl; [done|].
  destruct (step_closed self st Hclosed) as [Hc Hw]. by rewrite IH.
Qed.

Lemma connection_reset_closed (self : Self) :
  closed_or_absent (connection_reset self) ∧ written (connection_reset self) = written self.
Proof.
  unfold closed_or_absent, written, connection_reset.
  by destruct (sock self) as [s|] eqn:Hs; simpl; rewrite ?Hs.
Qed.

(** *** The summary of [v2_playbook_on_stats] *)

Lemma insert_sorted_perm (x : str) (l : list str) :
  insert_sorted x l ≡ₚ x :: l.
Proof.
  induction l as [|y l IH]; simpl; [done|].
  destruct (str_le x y); [done|]. by rewrite IH, Permutation_swap.
Qed.

Lemma sorted_perm (l : list str) : sorted l ≡ₚ l.
Proof.
  unfold sorted. induction l as [|x l IH]; simpl; [done|].
  by rewrite insert_sorted_perm, IH.
Qed.

Lemma foldl_insert_lookup (f : str → PyVal) (l : list str) (m : dict)
    (k : str) :
  foldl (λ (m : dict) h, <[h := f h]> m) m l !! k
  = if decide (k ∈ l) then Some (f k) else m !! k.
Proof.
  revert m. induction l as [|h l IH]; intros m.
  - destruct (decide (k ∈ [])) as [Hin|_]; [by apply elem_of_nil in Hin|done].
  - cbn [foldl]. rewrite IH.
    destruct (decide (k ∈ l)) as [Hin|Hnin];
      destruct (decide (k ∈ h :: l)) as [Hin'|Hnin']; try done.
    + exfalso. apply Hnin'. by apply elem_of_cons; right.
    + apply elem_of_cons in Hin' as [->|?]; [|done].
      by rewrite lookup_insert_eq.
    + rewrite lookup_insert_ne; [done|].
      intros ->. apply Hnin'. by apply elem_of_cons; left.
Qed.

Lemma elem_of_keys (m : dict) (k : str) :
  k ∈ (map_to_list m).*1 ↔ is_Some (m !! k).
Proof.
  rewrite list_elem_of_fmap. split.
  - intros ([k' v] & -> & Hin). apply elem_of_map_to_list in Hin. by eexists.
  - intros [v Hv]. exists (k, v). split; [done|].
    by apply elem_of_map_to_list.
Qed.

Lemma stats_summary_lookup (stats : Stats) (h : str) :
  stats_summary stats !! h
  = (λ _, summarize stats h) <$> processed stats !! h.
Proof.
  unfold stats_summary. rewrite foldl_insert_lookup.
  destruct (processed stats !! h) as [v|] eqn:Hh; simpl.
  - destruct (decide _) as [_|Hnin]; [done|].
    exfalso. apply Hnin. rewrite sorted_perm. apply elem_of_keys. by eexists.
  - destruct (decide _) as [Hin|_]; [|by rewrite lookup_empty].
    rewrite sorted_perm, elem_of_keys, Hh in Hin. by destruct Hin.
Qed.

(** *** Lines *)

Lemma newlines_app (a b : list Z) :
  newlines (a ++ b) = (newlines a + newlines b)%nat.
Proof. unfold newlines. by rewrite filter_app, length_app. Qed.

Lemma newlines_none (bs : list Z) : 0x0A ∉ bs → newlines bs = 0%nat.
Proof.
  unfold newlines. induction bs as [|b bs IH]; [done|].
  intros [Hb Hbs]%not_elem_of_cons.
  rewrite filter_cons_False by congruence. by apply IH.
Qed.

Lemma wire_one_newline (rec : dict) (line : list Z) :
  wire rec = inr line → newlines line = 1%nat.
Proof.
  unfold wire. destruct (json_dumps rec) as [e|text]; [done|]. simpl.
  destruct (encode_utf8 (replace_newline text)) as [e|body] eqn:Hbody;
    [done|]. simpl. intros [= <-].
  rewrite newlines_app, newlines_none; [done|].
  eapply encode_utf8_no_newline; [apply replace_newline_no_newline|done].
Qed.

Lemma lifecycle_newlines (steps : list Step) (self : Self) :
  (newlines (written (lifecycle steps self))
   ≤ newlines (written self) + calls steps)%nat.
Proof.
  unfold lifecycle. revert self.
  induction steps as [|st steps IH]; intros self; simpl; [lia|].
  specialize (IH (step self st)).
  destruct st as [ev|]; simpl in *.
  - destruct (handle_effect ev self)
      as (_ & _ & [Hw|(d & rec & line & _ & _ & _ & Hline & Hw)]);
      rewrite Hw in IH; [lia|].
    rewrite newlines_app, (wire_one_newline _ _ Hline) in IH. lia.
  - destruct (connection_reset_closed self) as [_ Hw]. rewrite Hw in IH. lia.
Qed.

(** *** [set_options], case by case *)

Lemma set_options_accepted (options : dict) (uuid4 user : str)
    (server p : PyVal) (port : Z) (self0 : Self) :
  options !! u "server" = Some server →
  options !! u "port" = Some p →
  py_int p = inr port →
  set_options options uuid4 (inr user) Accepted self0
  = (display (Banner_logging_to server port)
       (set_connected true
          (set_sock {| sent := []; broken := false |}
             (set_data (<[u "session" := VStr uuid4]>
                          (<[u "user" := VStr user]> ∅)) self0))),
     inr tt).
Proof.
  intros Hserver Hport Hint. unfold set_options, get_option, py_getitem.
  rewrite Hserver. simpl. rewrite Hport. simpl. by rewrite Hint.
Qed.

Lemma set_options_data (options : dict) (uuid4 user : str) (net : Connect)
    (self0 : Self) :
  data (set_options options uuid4 (inr user) net self0).1
  = Some (<[u "session" := VStr uuid4]> (<[u "user" := VStr user]> ∅)).
Proof.
  unfold set_options.
  destruct (_ : Res (PyVal * Z)) as [[]|[server port]]; try done.
  by destruct net as [|[]].
Qed.

Lemma lifecycle_data_unset (steps : list Step) (self : Self) :
  data self = None → lifecycle steps self = foldl (λ s st,
      match st with Call _ => s | Connection_reset => connection_reset s end) self steps
    ∧ data (lifecycle steps self) = None.
Proof.
  unfold lifecycle. revert self.
  induction steps as [|st steps IH]; intros self Hd; simpl; [done|].
  destruct st as [ev|]; simpl.
  - rewrite (handle_unset _ _ Hd). simpl. by apply IH.
  - apply IH. unfold connection_reset. by destruct (sock self).
Qed.

Lemma lifecycle_unset_written (steps : list Step) (self : Self) :
  data self = None → written (lifecycle steps self) = written self.
Proof.
  unfold lifecycle. revert self.
  induction steps as [|st steps IH]; intros self Hd; simpl; [done|].
  destruct st as [ev|]; simpl.
  - rewrite (handle_unset _ _ Hd). simpl. by apply IH.
  - destruct (connection_reset_closed self) as [_ <-]. apply IH.
    unfold connection_reset. by destruct (sock self).
Qed.

Lemma extract_log_lookup (rec0 : dict) (log : PyVal) (rec : dict) (k : str) :
  extract_log rec0 log = inr rec →
  k ∉ popped_keys → k ≠ u "rc" → k ≠ u "log" →
  rec !! k = rec0 !! k.
Proof.
  intros (ld & so & se & mo & me & _ & _ & _ & _ & _ & ->)%extract_log_inv.
  unfold popped_keys. rewrite !not_elem_of_cons.
  intros (? & ? & ? & ? & ? & _) ? ?.
  by rewrite !lookup_delete_ne, !lookup_insert_ne by done.
Qed.

Lemma extract_log_popped (rec0 : dict) (log : PyVal) (rec : dict) (k : str) :
  extract_log rec0 log = inr rec → k ∈ popped_keys → rec !! k = None.
Proof.
  intros (ld & so & se & mo & me & _ & _ & _ & _ & _ & ->)%extract_log_inv.
  unfold popped_keys. rewrite !elem_of_cons, elem_of_nil.
  intros [->|[->|[->|[->|[->|[]]]]]];
    repeat first [ by rewrite lookup_delete_eq
                 | rewrite lookup_delete_ne by keys ].
Qed.

(** *** A run without the connection flag *)

Lemma send_output_unassigned (msg : dict) (self : Self) :
  connected self = None →
  send_output msg self = (self, inl (AttributeError (u "connected"))).
Proof.
  intros Hc. unfold send_output. by rewrite bind_run, (attr_unset _ _ _ Hc).
Qed.

(** Without the flag a callback raises, and it leaves the socket and the
    display as they were. *)
Lemma handle_unassigned (ev : Event) (self : Self) :
  connected self = None →
  sock (handle ev self).1 = sock self
  ∧ shown (handle ev self).1 = shown self
  ∧ ∃ e, (handle ev self).2 = inl e.
Proof.
  intros Hc. destruct (data self) as [d|] eqn:Hd;
    [|rewrite (handle_unset _ _ Hd); by eauto].
  assert (Hrunner : ∀ f result,
            let r := (rec ← collect_output result; send_output (f rec)) self in
            sock r.1 = sock self ∧ shown r.1 = shown self
            ∧ ∃ e, r.2 = inl e).
  { intros f result. cbv zeta. rewrite runner_run.
    destruct (collect_output result self).2; [by eauto|].
    rewrite (send_output_unassigned _ _ Hc). by eauto. }
  destruct ev as [file_name|stats|result|result|result]; simpl.
  - rewrite (playbook_start_run _ _ _ Hd).
    rewrite send_output_unassigned by done. by eauto.
  - rewrite (playbook_stats_run _ _ _ Hd).
    rewrite (send_output_unassigned _ _ Hc). by eauto.
  - apply (Hrunner (insert (u "status") (VStr (u "failed")))).
  - apply (Hrunner (insert (u "status") (VStr (u "success")))).
  - apply (Hrunner (λ rec, <[u "rc" := VInt (-1)]>
                             (<[u "status" := VStr (u "unreachable")]> rec))).
Qed.

Lemma lifecycle_unassigned (steps : list Step) (self : Self) :
  connected self = None →
  sock self = None →
  connected (lifecycle steps self) = None
  ∧ sock (lifecycle steps self) = None
  ∧ shown (lifecycle steps self) = shown self.
Proof.
  unfold lifecycle. revert self.
  induction steps as [|st steps IH]; intros self Hc Hs; simpl; [done|].
  assert (Hstep : connected (step self st) = None
                  ∧ sock (step self st) = None
                  ∧ shown (step self st) = shown self).
  { split; [by rewrite step_connected|].
    destruct st as [ev|]; simpl.
    - destruct (handle_unassigned ev self Hc) as (-> & -> & _). done.
    - unfold connection_reset. by rewrite Hs. }
  destruct Hstep as (Hc' & Hs' & <-). by apply IH.
Qed.

(** A literal key that is none of the popped keys. *)
Ltac fresh_key :=
  first
    [ keys
    | unfold popped_keys; rewrite !not_elem_of_cons;
      repeat split; first [ keys | apply not_elem_of_nil ] ].

(** *** Further theorems *)

(** C8. When the ['server'] or the ['port'] option is missing,
    [set_options] displays the [KeyError] of the missing key and returns
    with neither connection flag nor socket assigned; this stays so for
    the whole run, in which the callbacks write nothing to any socket
    and display nothing further. *)
Theorem missing_option_inactive (options : dict) (uuid4 user : str)
    (net : Connect) (steps : list Step) :
  options !! u "server" = None ∨ options !! u "port" = None →
  let key :=
    match options !! u "server" with
    | None => u "server"
    | Some _ => u "port"
    end in
  let self1 := (set_options options uuid4 (inr user) net init).1 in
  (set_options options uuid4 (inr user) net init).2 = inr tt
  ∧ shown self1 = [Error_exc (KeyError key)]
  ∧ connected self1 = None
  ∧ sock self1 = None
  ∧ connected (lifecycle steps self1) = None
  ∧ sock (lifecycle steps self1) = None
  ∧ written (lifecycle steps self1) = []
  ∧ shown (lifecycle steps self1) = [Error_exc (KeyError key)].
Proof.
  intros Hmiss key self1.
  assert (Hcase : (key = u "server" ∧ options !! u "server" = None)
                  ∨ (key = u "port" ∧ is_Some (options !! u "server")
                     ∧ options !! u "port" = None)).
  { subst key. destruct (options !! u "server") as [server|] eqn:Hserver.
    - destruct Hmiss as [?|Hport]; [done|]. right. by eauto.
    - by left. }
  subst self1.
  rewrite (set_options_missing _ uuid4 user net init key Hcase). simpl.
  split; [done|]. split; [done|]. split; [done|]. split; [done|].
  set (self1 := display _ _).
  destruct (lifecycle_unassigned steps self1 eq_refl eq_refl)
    as (Hc & Hs & Hshown).
  split; [done|]. split; [done|]. split; [|done].
  unfold written. by rewrite Hs.
Qed.

(** X1. While the instance is connected and the socket is open, a record
    that serializes to a text without surrogates is sent: [send_output]
    returns normally and the socket receives the encoded text, newlines
    replaced by spaces, and one newline byte. *)
Theorem send_output_sends_line (msg : dict) (self : Self) (s : Socket)
    (text : str) :
  connected self = Some true →
  sock self = Some s →
  broken s = false →
  json_dumps msg = inr text →
  Forall (λ c, is_surrogate c = false) text →
  ∃ body,
    encode_utf8 (replace_newline text) = inr body
    ∧ send_output msg self
      = (set_sock {| sent := sent s ++ body ++ [0x0A]; broken := false |} self,
         inr tt).
Proof.
  intros Hc Hs Hb Htext Hsur.
  destruct (encode_utf8_encodes (replace_newline text)) as [body Hbody].
  { unfold replace_newline. apply Forall_fmap.
    eapply Forall_impl; [exact Hsur|]. intros c Hcp. simpl.
    by destruct (c =? 0x0A). }
  exists body. split; [done|]. by apply (send_output_sent _ _ _ text).
Qed.

(** X2. An error of the serialization is raised before anything is
    written: when [json.dumps] raises on the record, [send_output] raises
    the same error and leaves the instance and its socket as they were. *)
Theorem send_output_fails_before_writing (msg : dict) (self : Self)
    (e : Exc) :
  connected self = Some true →
  json_dumps msg = inl e →
  send_output msg self = (self, inl e).
Proof. intros Hc He. by apply send_output_dumps_error. Qed.

(** X3. No write error is handled: on a socket in the state in which
    writes raise, a record that serializes raises [BrokenPipeError] to
    the caller. *)
Theorem send_output_broken_pipe (msg : dict) (self : Self) (s : Socket)
    (text : str) :
  connected self = Some true →
  sock self = Some s →
  broken s = true →
  json_dumps msg = inr text →
  Forall (λ c, is_surrogate c = false) text →
  send_output msg self = (self, inl BrokenPipeError).
Proof.
  intros Hc Hs Hb Htext Hsur.
  destruct (encode_utf8_encodes (replace_newline text)) as [body Hbody].
  { unfold replace_newline. apply Forall_fmap.
    eapply Forall_impl; [exact Hsur|]. intros c Hcp. simpl.
    by destruct (c =? 0x0A). }
  by apply (send_output_broken _ _ s text body).
Qed.

(** X4. There is no reconnection: once the socket is in the state in
    which writes raise, whatever callbacks follow, [self.sock] is still
    that same socket and nothing more has been written. *)
Theorem no_reconnection (steps : list Step) (self : Self) (s : Socket) :
  sock self = Some s →
  broken s = true →
  sock (lifecycle steps self) = Some s
  ∧ written (lifecycle steps self) = written self.
Proof.
  intros Hs Hb.
  assert (Hsock : sock (lifecycle steps self) = Some s).
  { unfold lifecycle. revert self Hs.
    induction steps as [|st steps IH]; intros self Hs; simpl; [done|].
    apply IH. destruct st as [ev|]; simpl.
    - rewrite handle_closed; [done|].
      unfold closed_or_absent. by rewrite Hs.
    - unfold connection_reset. rewrite Hs. unfold set_sock. simpl.
      destruct s as [bytes flag]. simpl in Hb. by subst. }
  split; [done|]. unfold written. by rewrite Hsock, Hs.
Qed.

(** X5. The connection flag is decided by [set_options] alone: no
    callback and no failure of the socket changes [self.connected]. *)
Theorem connected_fixed_by_set_options (steps : list Step) (self : Self) :
  connected (lifecycle steps self) = connected self.
Proof. apply lifecycle_connected. Qed.

(** X6. Unless [self.connected] is true, a whole run writes nothing to
    the socket. *)
Theorem unconnected_run_writes_nothing (steps : list Step) (self : Self) :
  connected self ≠ Some true →
  written (lifecycle steps self) = written self.
Proof. apply lifecycle_unconnected. Qed.

(** X7. A callback that runs while [self.data] is not assigned raises
    [AttributeError], and this stays so for the whole run: without the
    session context of [set_options] nothing is sent. *)
Theorem callbacks_need_session_context (steps : list Step) (ev : Event)
    (self : Self) :
  data self = None →
  handle ev (lifecycle steps self)
  = (lifecycle steps self, inl (AttributeError (u "data")))
  ∧ written (lifecycle steps self) = written self.
Proof.
  intros Hd. destruct (lifecycle_data_unset steps self Hd) as [_ Hd'].
  split; [by apply handle_unset|by apply lifecycle_unset_written].
Qed.

(** X8. When [os.getlogin()] raises, [set_options] raises the same error
    with no attribute assigned, and every callback afterwards raises
    [AttributeError]. *)
Theorem getlogin_error_disables_callbacks (options : dict) (uuid4 : str)
    (e : Exc) (net : Connect) (steps : list Step) (ev : Event) :
  set_options options uuid4 (inl e) net init = (init, inl e)
  ∧ handle ev (lifecycle steps init)
    = (lifecycle steps init, inl (AttributeError (u "data"))).
Proof.
  split; [done|].
  destruct (lifecycle_data_unset steps init eq_refl) as [_ Hd].
  by apply handle_unset.
Qed.

(** X9. [collect_output] only reads the instance: whether it returns a
    record or raises, every attribute and the socket are as before. *)
Theorem collect_output_leaves_instance (result : TaskResult) (self : Self) :
  (collect_output result self).1 = self.
Proof. apply collect_output_state. Qed.

(** X10. The record of [collect_output] names the task and the host of
    the result, holds none of the five popped keys, and carries every
    other entry of [self.data] unchanged, apart from ['rc'] and ['log']. *)
Theorem collect_output_record_keys (result : TaskResult) (self self' : Self)
    (d rec : dict) :
  data self = Some d →
  collect_output result self = (self', inr rec) →
  rec !! u "task" = Some (VStr (_task_name result))
  ∧ rec !! u "host" = Some (VStr (_host_name result))
  ∧ is_Some (rec !! u "rc")
  ∧ (∃ text, rec !! u "log" = Some (VStr text))
  ∧ (∀ k, k ∈ popped_keys → rec !! k = None)
  ∧ (∀ k, k ∉ assigned_keys → k ∉ popped_keys → rec !! k = d !! k).
Proof.
  intros Hd (-> & d' & log & Hd' & _ & Hrec)%collect_output_inv.
  rewrite Hd in Hd'. injection Hd' as <-.
  split; [|split; [|split; [|split; [|split]]]].
  - rewrite (extract_log_lookup _ _ _ _ Hrec); [|fresh_key..].
    unfold base_record. by look.
  - rewrite (extract_log_lookup _ _ _ _ Hrec); [|fresh_key..].
    unfold base_record. by look.
  - apply extract_log_inv in Hrec
      as (ld & so & se & mo & me & _ & _ & _ & _ & _ & ->).
    look. by eexists.
  - apply extract_log_inv in Hrec
      as (ld & so & se & mo & me & _ & _ & _ & _ & _ & ->).
    look. by eexists.
  - intros k. by apply (extract_log_popped _ _ _ _ Hrec).
  - intros k Hk Hpop. unfold assigned_keys in Hk.
    rewrite !not_elem_of_cons in Hk. destruct Hk as (? & ? & ? & ? & _).
    rewrite (extract_log_lookup _ _ _ _ Hrec) by done.
    unfold base_record. by rewrite !lookup_insert_ne.
Qed.

(** X11. [v2_runner_on_failed] and [v2_runner_on_ok] send the record of
    [collect_output] with ['status'] set to ['failed'] and to ['success'];
    unlike the unreachable handler they leave ['rc'] as extracted. *)
Theorem runner_status_record (ok : bool) (result : TaskResult)
    (self self' : Self) :
  let handler := if ok then v2_runner_on_ok else v2_runner_on_failed in
  let status := if ok then u "success" else u "failed" in
  connected self = Some true →
  handler result self = (self', inr tt) →
  ∃ rec0 line,
    collect_output result self = (self, inr rec0)
    ∧ wire (<[u "status" := VStr status]> rec0) = inr line
    ∧ (<[u "status" := VStr status]> rec0) !! u "rc" = rec0 !! u "rc"
    ∧ written self' = written self ++ line.
Proof.
  intros handler status Hc Hrun.
  assert (Hrun' : (rec ← collect_output result;
                   send_output (<[u "status" := VStr status]> rec)) self
                  = (self', inr tt)) by (by destruct ok).
  clear Hrun. rewrite runner_run in Hrun'.
  pose proof (collect_output_state result self) as Hst.
  destruct (collect_output result self) as [self1 [e|rec0]] eqn:Hco;
    simpl in *; [done|]. subst self1.
  destruct (send_output_cases (<[u "status" := VStr status]> rec0) self)
    as [[Hf _]|[[e He]|(s & line & _ & Hs & Hw & Hsend)]];
    [congruence..|].
  rewrite Hsend in Hrun'. injection Hrun' as <-.
  exists rec0, line. split; [done|]. split; [done|].
  split; [destruct ok; by look|].
  unfold written. simpl. by rewrite Hs.
Qed.

(** X12. [v2_playbook_on_start] stores the base name of the playbook into
    [self.data] before it sends, so the entry stays even when sending
    raises; the record it sends is that context with ['task'] set to
    ['Playbook start']. *)
Theorem playbook_start_record (file_name : str) (self : Self) (d : dict) :
  data self = Some d →
  let context := <[u "playbook" := VStr (basename file_name)]> d in
  v2_playbook_on_start file_name self
  = send_output (<[u "task" := VStr (u "Playbook start")]> context)
      (set_data context self)
  ∧ data (v2_playbook_on_start file_name self).1 = Some context.
Proof.
  intros Hd context. subst context. rewrite (playbook_start_run _ _ _ Hd).
  split; [done|].
  by destruct (send_output_effect
                 (<[u "task" := VStr (u "Playbook start")]>
                    (<[u "playbook" := VStr (basename file_name)]> d))
                 (set_data (<[u "playbook" := VStr (basename file_name)]> d)
                    self)) as (-> & _).
Qed.

(** X13. The name stored by [v2_playbook_on_start] is the last component
    of the path: it holds no slash, and for a path [dir/name] it is
    [name]. *)
Theorem playbook_name_is_last_component (dir name : str) (self : Self)
    (d : dict) :
  data self = Some d →
  0x2F ∉ name →
  data (v2_playbook_on_start (dir ++ 0x2F :: name) self).1
  = Some (<[u "playbook" := VStr name]> d)
  ∧ data (v2_playbook_on_start name self).1
    = Some (<[u "playbook" := VStr name]> d)
  ∧ ∀ path, 0x2F ∉ basename path.
Proof.
  intros Hd Hname.
  assert (Hstart : ∀ path,
            data (v2_playbook_on_start path self).1
            = Some (<[u "playbook" := VStr (basename path)]> d)).
  { intros path. rewrite (playbook_start_run _ _ _ Hd).
    by destruct (send_output_effect
                   (<[u "task" := VStr (u "Playbook start")]>
                      (<[u "playbook" := VStr (basename path)]> d))
                   (set_data (<[u "playbook" := VStr (basename path)]> d) self))
      as (-> & _). }
  rewrite !Hstart. unfold basename.
  rewrite basename_from_slash, !basename_from_plain by done.
  repeat split. intros path. apply basename_from_no_slash, not_elem_of_nil.
Qed.

(** X14. After [v2_playbook_on_start], the record of every task result
    carries the name of the playbook. *)
Theorem task_record_carries_playbook (file_name : str) (result : TaskResult)
    (self self' : Self) (d rec : dict) :
  data self = Some d →
  collect_output result (v2_playbook_on_start file_name self).1
  = (self', inr rec) →
  rec !! u "playbook" = Some (VStr (basename file_name))
  ∧ rec !! u "session" = d !! u "session"
  ∧ rec !! u "user" = d !! u "user".
Proof.
  intros Hd Hrun.
  assert (Hdata : data (v2_playbook_on_start file_name self).1
                  = Some (<[u "playbook" := VStr (basename file_name)]> d)).
  { rewrite (playbook_start_run _ _ _ Hd).
    by destruct (send_output_effect
                   (<[u "task" := VStr (u "Playbook start")]>
                      (<[u "playbook" := VStr (basename file_name)]> d))
                   (set_data (<[u "playbook" := VStr (basename file_name)]> d)
                      self)) as (-> & _). }
  apply collect_output_inv in Hrun as (_ & d' & log & Hd' & _ & Hrec).
  rewrite Hdata in Hd'. injection Hd' as <-.
  rewrite !(extract_log_lookup _ _ _ _ Hrec) by fresh_key.
  unfold base_record. by look.
Qed.

(** X15. The summary of [v2_playbook_on_stats] has exactly the processed
    hosts as keys, each with the statistics of that host. *)
Theorem stats_summary_hosts (stats : Stats) (h : str) :
  stats_summary stats !! h
  = if decide (is_Some (processed stats !! h))
    then Some (summarize stats h) else None.
Proof.
  rewrite stats_summary_lookup.
  by destruct (processed stats !! h).
Qed.

(** X16. When [v2_playbook_on_stats] returns on a connected instance, it
    has sent the context with ['task'] set to ['Playbook end'] and the
    summary under ['stdout'], and has displayed the session afterwards. *)
Theorem playbook_stats_record (stats : Stats) (self self' : Self) (d : dict) :
  data self = Some d →
  connected self = Some true →
  v2_playbook_on_stats stats self = (self', inr tt) →
  ∃ session line,
    d !! u "session" = Some session
    ∧ wire (<[u "stdout" := VDict (stats_summary stats)]>
              (<[u "task" := VStr (u "Playbook end")]> d)) = inr line
    ∧ written self' = written self ++ line
    ∧ shown self' = shown self ++ [Display_session session]
    ∧ data self' = Some d.
Proof.
  intros Hd Hc. rewrite (playbook_stats_run _ _ _ Hd).
  set (msg := <[u "stdout" := VDict (stats_summary stats)]> _).
  destruct (send_output_cases msg self)
    as [[Hf _]|[[e ->]|(s & line & _ & Hs & Hw & ->)]];
    [congruence|done|].
  destruct (d !! u "session") as [session|]; [|done].
  intros [= <-]. exists session, line. split; [done|]. split; [done|].
  split; [unfold written; simpl; by rewrite Hs|]. by split.
Qed.

(** X17. When the connection was refused, [v2_playbook_on_stats] still
    returns normally and displays the session, and writes nothing. *)
Theorem playbook_stats_not_connected (stats : Stats) (self : Self) (d : dict)
    (session : PyVal) :
  data self = Some d →
  d !! u "session" = Some session →
  connected self = Some false →
  v2_playbook_on_stats stats self
  = (display (Display_session session) self, inr tt).
Proof.
  intros Hd Hsession Hc. rewrite (playbook_stats_run _ _ _ Hd).
  by rewrite send_output_not_connected, Hsession.
Qed.

(** X18. The ['log'] of a record neither begins nor ends with a
    whitespace character. *)
Theorem log_has_no_outer_whitespace (result : TaskResult) (self self' : Self)
    (rec : dict) :
  collect_output result self = (self', inr rec) →
  ∃ text,
    rec !! u "log" = Some (VStr text)
    ∧ (∀ c, head text = Some c → is_space c = false)
    ∧ (∀ c, last text = Some c → is_space c = false).
Proof.
  intros (_ & d & log & _ & _ & Hrec)%collect_output_inv.
  apply extract_log_inv in Hrec
    as (ld & so & se & mo & me & _ & _ & _ & _ & _ & ->).
  eexists. split; [by look|]. unfold log_text.
  split; intros c; [apply strip_head|apply strip_last].
Qed.

(** X19. A payload with none of the five text fields gives the log [''],
    the [repr] of the empty default of [msg]: the log is never empty. *)
Theorem log_of_silent_result (result : TaskResult) (self : Self)
    (d ld : dict) :
  data self = Some d →
  select_log (cleaned result) = inr (VDict ld) →
  Forall (λ k, ld !! k = None) popped_keys →
  ∃ rec,
    collect_output result self = (self, inr rec)
    ∧ rec !! u "log" = Some (VStr (u "''")).
Proof.
  intros Hd Hlog Hnone.
  assert (Hget : ∀ k, k ∈ popped_keys → dict_get ld k (VStr []) = VStr []).
  { intros k Hk. unfold dict_get.
    by rewrite (proj1 (Forall_forall _ _) Hnone k Hk). }
  rewrite (collect_output_run _ _ _ Hd), Hlog. simpl.
  rewrite (extract_log_typed _ ld [] [] [] []);
    [|apply Hget; unfold popped_keys; set_solver..].
  eexists. split; [done|]. look.
  rewrite Hget by (unfold popped_keys; set_solver). done.
Qed.

(** X20. Only a missing option is caught in [set_options]: when [int]
    rejects the configured port, its error leaves [set_options] with the
    session context assigned and with neither socket nor connection
    flag. *)
Theorem set_options_port_not_integer (options : dict) (uuid4 user : str)
    (server p : PyVal) (e : Exc) (net : Connect) (self0 : Self) :
  options !! u "server" = Some server →
  options !! u "port" = Some p →
  py_int p = inl e →
  (∀ key, e ≠ KeyError key) →
  set_options options uuid4 (inr user) net self0
  = (set_data (<[u "session" := VStr uuid4]> (<[u "user" := VStr user]> ∅))
       self0,
     inl e).
Proof.
  intros Hserver Hport Hint Hne. unfold set_options, get_option, py_getitem.
  rewrite Hserver. simpl. rewrite Hport. simpl. rewrite Hint. simpl.
  destruct e; try done. by destruct (Hne key).
Qed.

(** X21. Only a refused connection is caught in [set_options]: any other
    error of [connect] is raised, with the socket created and the
    connection flag left as it was. *)
Theorem set_options_connect_error (options : dict) (uuid4 user : str)
    (server p : PyVal) (port : Z) (e : Exc) (self0 : Self) :
  options !! u "server" = Some server →
  options !! u "port" = Some p →
  py_int p = inr port →
  e ≠ ConnectionRefusedError →
  set_options options uuid4 (inr user) (Raises e) self0
  = (set_sock {| sent := []; broken := false |}
       (set_data (<[u "session" := VStr uuid4]> (<[u "user" := VStr user]> ∅))
          self0),
     inl e).
Proof.
  intros Hserver Hport Hint Hne. unfold set_options, get_option, py_getitem.
  rewrite Hserver. simpl. rewrite Hport. simpl. rewrite Hint.
  by destruct e.
Qed.

(** X22. With the ['server'] or the ['port'] option missing, [set_options]
    attempts no connection: whatever [connect] would do, it displays the
    [KeyError] of the first missing key and returns, no socket is created,
    and the run that follows writes nothing. *)
Theorem missing_option_no_connection (options : dict) (uuid4 user : str)
    (net : Connect) (steps : list Step) :
  options !! u "server" = None ∨ options !! u "port" = None →
  ∃ key,
    (key = u "server" ∨ key = u "port")
    ∧ options !! key = None
    ∧ set_options options uuid4 (inr user) net init
      = (display (Error_exc (KeyError key))
           (set_data (<[u "session" := VStr uuid4]>
                        (<[u "user" := VStr user]> ∅)) init),
         inr tt)
    ∧ written (lifecycle steps
                 (set_options options uuid4 (inr user) net init).1) = [].
Proof.
  intros Hmiss.
  assert (Hkey : ∃ key,
            (key = u "server" ∨ key = u "port") ∧ options !! key = None
            ∧ ((key = u "server" ∧ options !! u "server" = None)
               ∨ (key = u "port" ∧ is_Some (options !! u "server")
                  ∧ options !! u "port" = None))).
  { destruct (options !! u "server") as [server|] eqn:Hserver.
    - destruct Hmiss as [?|Hport]; [done|].
      exists (u "port"). split; [by right|]. split; [done|]. right. eauto.
    - exists (u "server"). split; [by left|]. split; [done|]. by left. }
  destruct Hkey as (key & Hwhich & Hnone & Hcase).
  exists key. split; [done|]. split; [done|].
  rewrite (set_options_missing _ uuid4 user net init key Hcase).
  split; [done|]. by rewrite lifecycle_unconnected.
Qed.

(** X23. Whenever [os.getlogin()] succeeds, [set_options] leaves exactly
    the session and the user in [self.data], also when it goes on to
    raise or to miss an option. *)
Theorem set_options_session_context (options : dict) (uuid4 user : str)
    (net : Connect) (self0 : Self) :
  data (set_options options uuid4 (inr user) net self0).1
  = Some (<[u "session" := VStr uuid4]> (<[u "user" := VStr user]> ∅)).
Proof. apply set_options_data. Qed.

(** X24. From configuration to the wire: after an accepted connection,
    the first callback of a run, [v2_playbook_on_start], returns normally
    and the socket holds exactly one line, that of the session, the user,
    the name of the playbook and the task ['Playbook start']. *)
Theorem first_record_of_a_run (options : dict) (uuid4 user : str)
    (server p : PyVal) (port : Z) (file_name text : str) :
  options !! u "server" = Some server →
  options !! u "port" = Some p →
  py_int p = inr port →
  json_dumps
    (<[u "task" := VStr (u "Playbook start")]>
       (<[u "playbook" := VStr (basename file_name)]>
          (<[u "session" := VStr uuid4]> (<[u "user" := VStr user]> ∅))))
  = inr text →
  Forall (λ c, is_surrogate c = false) text →
  ∃ body,
    encode_utf8 (replace_newline text) = inr body
    ∧ (v2_playbook_on_start file_name
         (set_options options uuid4 (inr user) Accepted init).1).2 = inr tt
    ∧ written (v2_playbook_on_start file_name
                 (set_options options uuid4 (inr user) Accepted init).1).1
      = body ++ [0x0A].
Proof.
  intros Hserver Hport Hint Htext Hsur.
  rewrite (set_options_accepted _ _ _ _ _ _ _ Hserver Hport Hint). simpl.
  rewrite (playbook_start_run _ _
             (<[u "session" := VStr uuid4]> (<[u "user" := VStr user]> ∅)))
    by done.
  destruct (encode_utf8_encodes (replace_newline text)) as [body Hbody].
  { unfold replace_newline. apply Forall_fmap.
    eapply Forall_impl; [exact Hsur|]. intros c Hcp. simpl.
    by destruct (c =? 0x0A). }
  exists body. split; [done|].
  by rewrite (send_output_sent _ _ {| sent := []; broken := false |} text body).
Qed.

(** X25. For a serialized text in ASCII, as [json.dumps] produces by
    default, the line on the wire is the text itself, its newlines
    replaced by spaces, and a newline byte. *)
Theorem wire_of_ascii_text (rec : dict) (text : str) :
  json_dumps rec = inr text →
  Forall (λ c, is_ascii c = true) text →
  wire rec = inr (replace_newline text ++ [0x0A]).
Proof.
  intros Htext Hascii. unfold wire. rewrite Htext. simpl.
  by rewrite (encode_utf8_plain _ (replace_newline_plain _ Hascii)).
Qed.

(** X26. Every element of a line on the wire is a byte, whenever the
    serialized text is made of code points. *)
Theorem wire_is_bytes (rec : dict) (text : str) (line : list Z) :
  json_dumps rec = inr text →
  Forall (λ c, is_code_point c = true) text →
  wire rec = inr line →
  Forall (λ b, is_byte b = true) line.
Proof.
  intros Htext Hcp. unfold wire. rewrite Htext. simpl.
  destruct (encode_utf8 (replace_newline text)) as [e|body] eqn:Hbody;
    [done|]. simpl. intros [= <-].
  apply Forall_app. split; [|by repeat constructor].
  eapply encode_utf8_bytes; [|exact Hbody].
  by apply replace_newline_code_points.
Qed.

(** X27. A callback sends one record at most: a run never writes more
    lines than it has callbacks. *)
Theorem one_line_per_callback_at_most (steps : list Step) (self : Self) :
  (newlines (written (lifecycle steps self))
   ≤ newlines (written self) + calls steps)%nat.
Proof. apply lifecycle_newlines. Qed.

End Further.

(** ** The further theorems at concrete inputs *)

(** A decidable side condition, settled by evaluation. *)
Ltac decided := apply (bool_decide_unpack _); vm_compute; exact I.

Lemma missing_option_inactive_witness :
  let self1 :=
    (set_options (H := Sample.host) Sample.options_without_server
       Sample.uuid4 Sample.login Accepted init).1 in
  (set_options (H := Sample.host) Sample.options_without_server
     Sample.uuid4 Sample.login Accepted init).2 = inr tt
  ∧ shown self1 = [Error_exc (KeyError (u "server"))]
  ∧ connected self1 = None
  ∧ sock self1 = None
  ∧ connected (lifecycle (H := Sample.host) Sample.steps self1) = None
  ∧ sock (lifecycle (H := Sample.host) Sample.steps self1) = None
  ∧ written (lifecycle (H := Sample.host) Sample.steps self1) = []
  ∧ shown (lifecycle (H := Sample.host) Sample.steps self1)
    = [Error_exc (KeyError (u "server"))].
Proof.
  apply (missing_option_inactive (H := Sample.host)
           Sample.options_without_server Sample.uuid4 (u "deploy") Accepted
           Sample.steps).
  left. reflexivity.
Defined.

Lemma send_output_sends_line_witness :
  ∃ body,
    encode_utf8 (replace_newline (Sample.text_of Sample.session_data))
    = inr body
    ∧ send_output (H := Sample.host) Sample.session_data Sample.connected_self
      = (set_sock {| sent := [] ++ body ++ [0x0A]; broken := false |}
           Sample.connected_self,
         inr tt).
Proof.
  apply (send_output_sends_line (H := Sample.host) Sample.session_data
           Sample.connected_self {| sent := []; broken := false |}
           (Sample.text_of Sample.session_data));
    try reflexivity.
  decided.
Defined.

Lemma send_output_fails_before_writing_witness :
  send_output (H := Sample.rejecting_host) Sample.session_data
    Sample.connected_self
  = (Sample.connected_self, inl TypeError).
Proof.
  apply (send_output_fails_before_writing (H := Sample.rejecting_host)
           Sample.session_data Sample.connected_self TypeError);
    reflexivity.
Defined.

Lemma send_output_broken_pipe_witness :
  send_output (H := Sample.host) Sample.session_data Sample.closed_self
  = (Sample.closed_self, inl BrokenPipeError).
Proof.
  apply (send_output_broken_pipe (H := Sample.host) Sample.session_data
           Sample.closed_self {| sent := []; broken := true |}
           (Sample.text_of Sample.session_data));
    try reflexivity.
  decided.
Defined.

Lemma no_reconnection_witness :
  sock (lifecycle (H := Sample.host) Sample.steps Sample.closed_self)
  = Some {| sent := []; broken := true |}
  ∧ written (lifecycle (H := Sample.host) Sample.steps Sample.closed_self)
    = written Sample.closed_self.
Proof.
  apply (no_reconnection (H := Sample.host) Sample.steps Sample.closed_self
           {| sent := []; broken := true |});
    reflexivity.
Defined.

Lemma unconnected_run_writes_nothing_witness :
  written (lifecycle (H := Sample.host) Sample.steps Sample.refused_self)
  = written Sample.refused_self.
Proof.
  apply (unconnected_run_writes_nothing (H := Sample.host) Sample.steps
           Sample.refused_self).
  discriminate.
Defined.

Lemma callbacks_need_session_context_witness :
  handle (H := Sample.host) (Runner_ok Sample.failed_result)
    (lifecycle (H := Sample.host) Sample.steps init)
  = (lifecycle (H := Sample.host) Sample.steps init,
     inl (AttributeError (u "data")))
  ∧ written (lifecycle (H := Sample.host) Sample.steps init) = written init.
Proof.
  apply (callbacks_need_session_context (H := Sample.host) Sample.steps
           (Runner_ok Sample.failed_result) init).
  reflexivity.
Defined.

Lemma collect_output_record_keys_witness :
  let rec := Sample.record_of Sample.failed_result Sample.started_self in
  rec !! u "task" = Some (VStr (u "install package"))
  ∧ rec !! u "host" = Some (VStr (u "web1"))
  ∧ is_Some (rec !! u "rc")
  ∧ (∃ text, rec !! u "log" = Some (VStr text))
  ∧ (∀ k, k ∈ popped_keys → rec !! k = None)
  ∧ (∀ k, k ∉ assigned_keys → k ∉ popped_keys →
       rec !! k
       = (<[u "playbook" := VStr (u "site.yml")]> Sample.session_data) !! k).
Proof.
  apply (collect_output_record_keys (H := Sample.host) Sample.failed_result
           Sample.started_self Sample.started_self);
    vm_compute; reflexivity.
Defined.

Lemma runner_status_record_witness :
  ∃ rec0 line,
    collect_output (H := Sample.host) Sample.failed_result
      Sample.connected_self
    = (Sample.connected_self, inr rec0)
    ∧ wire (H := Sample.host) (<[u "status" := VStr (u "failed")]> rec0)
      = inr line
    ∧ (<[u "status" := VStr (u "failed")]> rec0) !! u "rc" = rec0 !! u "rc"
    ∧ written (v2_runner_on_failed (H := Sample.host) Sample.failed_result
                 Sample.connected_self).1
      = written Sample.connected_self ++ line.
Proof.
  apply (runner_status_record (H := Sample.host) false Sample.failed_result
           Sample.connected_self);
    vm_compute; reflexivity.
Defined.

Lemma playbook_start_record_witness :
  v2_playbook_on_start (H := Sample.host) (u "/srv/plays/site.yml")
    Sample.refused_self
  = send_output (H := Sample.host)
      (<[u "task" := VStr (u "Playbook start")]>
         (<[u "playbook" := VStr (basename (u "/srv/plays/site.yml"))]>
            Sample.session_data))
      (set_data
         (<[u "playbook" := VStr (basename (u "/srv/plays/site.yml"))]>
            Sample.session_data)
         Sample.refused_self)
  ∧ data (v2_playbook_on_start (H := Sample.host) (u "/srv/plays/site.yml")
            Sample.refused_self).1
    = Some (<[u "playbook" := VStr (basename (u "/srv/plays/site.yml"))]>
              Sample.session_data).
Proof.
  apply (playbook_start_record (H := Sample.host) (u "/srv/plays/site.yml")
           Sample.refused_self Sample.session_data).
  reflexivity.
Defined.

Lemma playbook_name_is_last_component_witness :
  data (v2_playbook_on_start (H := Sample.host)
          (u "/srv/plays" ++ 0x2F :: u "site.yml") Sample.connected_self).1
  = Some (<[u "playbook" := VStr (u "site.yml")]> Sample.session_data)
  ∧ data (v2_playbook_on_start (H := Sample.host) (u "site.yml")
            Sample.connected_self).1
    = Some (<[u "playbook" := VStr (u "site.yml")]> Sample.session_data)
  ∧ ∀ path, 0x2F ∉ basename path.
Proof.
  apply (playbook_name_is_last_component (H := Sample.host) (u "/srv/plays")
           (u "site.yml") Sample.connected_self Sample.session_data).
  - reflexivity.
  - decided.
Defined.

Lemma task_record_carries_playbook_witness :
  Sample.record_of Sample.failed_result Sample.started_self !! u "playbook"
  = Some (VStr (basename (u "/srv/plays/site.yml")))
  ∧ Sample.record_of Sample.failed_result Sample.started_self !! u "session"
    = Sample.session_data !! u "session"
  ∧ Sample.record_of Sample.failed_result Sample.started_self !! u "user"
    = Sample.session_data !! u "user".
Proof.
  apply (task_record_carries_playbook (H := Sample.host)
           (u "/srv/plays/site.yml") Sample.failed_result
           Sample.connected_self Sample.started_self Sample.session_data);
    vm_compute; reflexivity.
Defined.

Lemma playbook_stats_record_witness :
  ∃ session line,
    Sample.session_data !! u "session" = Some session
    ∧ wire (H := Sample.host)
        (<[u "stdout" := VDict (stats_summary Sample.stats)]>
           (<[u "task" := VStr (u "Playbook end")]> Sample.session_data))
      = inr line
    ∧ written (v2_playbook_on_stats (H := Sample.host) Sample.stats
                 Sample.connected_self).1
      = written Sample.connected_self ++ line
    ∧ shown (v2_playbook_on_stats (H := Sample.host) Sample.stats
               Sample.connected_self).1
      = shown Sample.connected_self ++ [Display_session session]
    ∧ data (v2_playbook_on_stats (H := Sample.host) Sample.stats
              Sample.connected_self).1
      = Some Sample.session_data.
Proof.
  apply (playbook_stats_record (H := Sample.host) Sample.stats
           Sample.connected_self);
    vm_compute; reflexivity.
Defined.

Lemma playbook_stats_not_connected_witness :
  v2_playbook_on_stats (H := Sample.host) Sample.stats Sample.refused_self
  = (display (Display_session (VStr Sample.uuid4)) Sample.refused_self,
     inr tt).
Proof.
  apply (playbook_stats_not_connected (H := Sample.host) Sample.stats
           Sample.refused_self Sample.session_data);
    reflexivity.
Defined.

Lemma log_has_no_outer_whitespace_witness :
  ∃ text,
    Sample.record_of Sample.failed_result Sample.connected_self !! u "log"
    = Some (VStr text)
    ∧ (∀ c, head text = Some c → is_space c = false)
    ∧ (∀ c, last text = Some c → is_space c = false).
Proof.
  apply (log_has_no_outer_whitespace (H := Sample.host) Sample.failed_result
           Sample.connected_self Sample.connected_self).
  vm_compute. reflexivity.
Defined.

Lemma log_of_silent_result_witness :
  ∃ rec,
    collect_output (H := Sample.host) Sample.silent_result
      Sample.connected_self
    = (Sample.connected_self, inr rec)
    ∧ rec !! u "log" = Some (VStr (u "''")).
Proof.
  apply (log_of_silent_result (H := Sample.host) Sample.silent_result
           Sample.connected_self Sample.session_data
           (_result Sample.silent_result)).
  - reflexivity.
  - vm_compute. reflexivity.
  - decided.
Defined.

Lemma set_options_port_not_integer_witness :
  set_options (H := Sample.host) Sample.options_bad_port Sample.uuid4
    Sample.login Accepted init
  = (set_data Sample.session_data init, inl ValueError).
Proof.
  apply (set_options_port_not_integer (H := Sample.host)
           Sample.options_bad_port Sample.uuid4 (u "deploy")
           (VStr (u "localhost")) (VStr (u "http")) ValueError Accepted init);
    try reflexivity.
  discriminate.
Defined.

Lemma set_options_connect_error_witness :
  set_options (H := Sample.host) Sample.options Sample.uuid4 Sample.login
    (Raises OSError) init
  = (set_sock {| sent := []; broken := false |}
       (set_data Sample.session_data init),
     inl OSError).
Proof.
  apply (set_options_connect_error (H := Sample.host) Sample.options
           Sample.uuid4 (u "deploy") (VStr (u "localhost")) (VInt 5000) 5000
           OSError init);
    try reflexivity.
  discriminate.
Defined.

Lemma missing_option_no_connection_witness :
  ∃ key,
    (key = u "server" ∨ key = u "port")
    ∧ Sample.options_without_server !! key = None
    ∧ set_options (H := Sample.host) Sample.options_without_server
        Sample.uuid4 Sample.login Accepted init
      = (display (Error_exc (KeyError key))
           (set_data Sample.session_data init),
         inr tt)
    ∧ written (lifecycle (H := Sample.host) Sample.steps
                 (set_options (H := Sample.host) Sample.options_without_server
                    Sample.uuid4 Sample.login Accepted init).1) = [].
Proof.
  apply (missing_option_no_connection (H := Sample.host)
           Sample.options_without_server Sample.uuid4 (u "deploy") Accepted
           Sample.steps).
  left. reflexivity.
Defined.

Lemma first_record_of_a_run_witness :
  ∃ body,
    encode_utf8
      (replace_newline
         (Sample.text_of
            (<[u "task" := VStr (u "Playbook start")]>
               (<[u "playbook" := VStr (basename (u "/srv/plays/site.yml"))]>
                  Sample.session_data))))
    = inr body
    ∧ (v2_playbook_on_start (H := Sample.host) (u "/srv/plays/site.yml")
         Sample.connected_self).2 = inr tt
    ∧ written (v2_playbook_on_start (H := Sample.host)
                 (u "/srv/plays/site.yml") Sample.connected_self).1
      = body ++ [0x0A].
Proof.
  apply (first_record_of_a_run (H := Sample.host) Sample.options Sample.uuid4
           (u "deploy") (VStr (u "localhost")) (VInt 5000) 5000
           (u "/srv/plays/site.yml"));
    try reflexivity.
  decided.
Defined.

Lemma wire_of_ascii_text_witness :
  wire (H := Sample.host) Sample.session_data
  = inr (replace_newline (Sample.text_of Sample.session_data) ++ [0x0A]).
Proof.
  apply (wire_of_ascii_text (H := Sample.host) Sample.session_data
           (Sample.text_of Sample.session_data)).
  - reflexivity.
  - decided.
Defined.

Lemma wire_is_bytes_witness :
  Forall (λ b, is_byte b = true)
    (replace_newline (Sample.text_of Sample.session_data) ++ [0x0A]).
Proof.
  apply (wire_is_bytes (H := Sample.host) Sample.session_data
           (Sample.text_of Sample.session_data)).
  - reflexivity.
  - decided.
  - vm_compute. reflexivity.
Defined.
